(** * SoundCloud downloader: the request-to-download lifecycle of [app.py]

    A shallow embedding of the Flask application in [src/app.py]:
    the URL validator, the dependency check, the download pipeline
    [download_soundcloud_to_mp3], the [POST /] handler [download_route] and
    the sweep [cleanup_old_files], followed by the properties the
    specification states about them; then [get_file_info], the view
    [get_track_info] of [/info], the deferred deletion [remove_file] and
    the worker count of [src/gunicorn.conf.py].

    Conventions.
    - A Python [str] is a Rocq [string] that holds its UTF-8 encoding; the
      values a JSON body can hold are the inductive [pyval].
    - Python exceptions are the inductive [Exn]; a computation that may
      raise and that reads or changes the process environment is a function
      [World -> Result A * World] (the monad [M] below).
    - The output directory [DOWNLOADS_DIR] is a list of entries in the order
      [os.listdir] yields them.
    - [time.time()] and [os.path.getmtime] are IEEE binary64 numbers, as in
      Python: the primitive [float] of Rocq.
    - Library functions the program calls but does not define
      ([validators.url], [urllib.parse.urlparse], [shutil.which],
      [uuid.uuid4], [datetime.now], the [yt-dlp] subprocess) are parameters:
      Section variables or fields of the record [Env].
    - Calls to [logger] have no influence on control flow or results and are
      left out; so is the rate limiter, which answers 429 before a view
      runs. *)

From Stdlib Require Import String Ascii List ZArith Lia Bool.
From Stdlib Require Import Floats.
From Stdlib Require Import DecimalString.
Import ListNotations.
Open Scope string_scope.
Set Warnings "-register-all".

(** ** Python strings *)

Module PyStr.

(** [str.lower] on one character (ASCII letters; every other byte is
    kept). *)
Definition lower_ascii (c : ascii) : ascii :=
  let n := nat_of_ascii c in
  if ((65 <=? n) && (n <=? 90))%nat then ascii_of_nat (n + 32) else c.

(** [s.lower()].  Python also maps letters outside ASCII; the only one
    whose lower-case form is an ASCII letter is the Kelvin sign, which
    gives [k], a letter that none of the strings the program compares
    with contains, so the comparisons below are not affected. *)
Fixpoint lower (s : string) : string :=
  match s with
  | EmptyString => EmptyString
  | String c s' => String (lower_ascii c) (lower s')
  end.

(** [s.startswith(p)] *)
Definition startswith (s p : string) : bool := String.prefix p s.

(** [s.endswith(suf)] *)
Definition endswith (s suf : string) : bool :=
  let n := String.length s in
  let k := String.length suf in
  ((k <=? n)%nat && String.eqb (substring (n - k) k s) suf)%bool.

(** [sub in s] *)
Fixpoint contains (sub s : string) : bool :=
  match s with
  | EmptyString => String.prefix sub EmptyString
  | String _ s' => String.prefix sub s || contains sub s'
  end.

(** The white-space characters of one byte, as [str.strip] sees them: TAB,
    LF, VT, FF, CR, FS, GS, RS, US and the blank. *)
Definition isspace (c : ascii) : bool :=
  let n := nat_of_ascii c in
  (((9 <=? n) && (n <=? 13)) || ((28 <=? n) && (n <=? 32)))%nat.

(** The white-space characters of two bytes in UTF-8: U+0085 and U+00A0. *)
Definition isspace2 (a b : ascii) : bool :=
  let m := nat_of_ascii a in
  let n := nat_of_ascii b in
  ((m =? 194) && ((n =? 133) || (n =? 160)))%nat.

(** The white-space characters of three bytes in UTF-8: U+1680, U+2000 to
    U+200A, U+2028, U+2029, U+202F, U+205F and U+3000. *)
Definition isspace3 (a b c : ascii) : bool :=
  let l := nat_of_ascii a in
  let m := nat_of_ascii b in
  let n := nat_of_ascii c in
  (((l =? 225) && (m =? 154) && (n =? 128))
   || ((l =? 226) && (m =? 128)
       && (((128 <=? n) && (n <=? 138)) || (n =? 168) || (n =? 169) || (n =? 175)))
   || ((l =? 226) && (m =? 129) && (n =? 159))
   || ((l =? 227) && (m =? 128) && (n =? 128)))%nat.

(** [s.lstrip()]: the white-space characters at the start are dropped,
    whatever their width. *)
Fixpoint lstrip (s : string) : string :=
  match s with
  | EmptyString => EmptyString
  | String a r1 =>
      if isspace a then lstrip r1
      else
        match r1 with
        | EmptyString => s
        | String b r2 =>
            if isspace2 a b then lstrip r2
            else
              match r2 with
              | EmptyString => s
              | String c r3 => if isspace3 a b c then lstrip r3 else s
              end
        end
  end.

(** Whether [s] is white space throughout. *)
Definition blank (s : string) : bool := String.eqb (lstrip s) EmptyString.

(** [s.rstrip()]: what is left of [s] once its longest blank tail is
    dropped.  In well-formed UTF-8 no white-space character starts inside
    another character, so the bytes in front of a blank tail are kept one
    by one. *)
Fixpoint rstrip (s : string) : string :=
  match s with
  | EmptyString => EmptyString
  | String c s' => if blank s then EmptyString else String c (rstrip s')
  end.

(** [s.strip()] *)
Definition strip (s : string) : string := rstrip (lstrip s).

(** [sep.join(l)] *)
Definition join (sep : string) (l : list string) : string := String.concat sep l.

(** [s[:n]] *)
Definition take (n : nat) (s : string) : string := substring 0 n s.

(** [x in l] for a list of strings *)
Definition mem (x : string) (l : list string) : bool := existsb (String.eqb x) l.

(** [str(n)] for an integer *)
Definition of_Z (z : Z) : string := NilZero.string_of_int (Z.to_int z).

End PyStr.

(** ** Python values, exceptions and results *)

(** The Python values a request carries: what a parsed JSON body holds
    ([None], booleans, numbers, [str], lists and dicts with string keys, a
    dict being given by its items). *)
Inductive pyval : Type :=
| PyNone
| PyBool (b : bool)
| PyInt (z : Z)
| PyFloat (f : float)
| PyStr (s : string)
| PyList (l : list pyval)
| PyDict (d : list (string * pyval)).

(** [bool(v)] *)
Definition truthy (v : pyval) : bool :=
  match v with
  | PyNone => false
  | PyBool b => b
  | PyInt z => negb (z =? 0)%Z
  | PyFloat f => negb (PrimFloat.eqb f 0%float)
  | PyStr s => negb (String.eqb s "")
  | PyList l => match l with [] => false | _ => true end
  | PyDict d => match d with [] => false | _ => true end
  end.

(** [v in l] for a list [l] of [str] literals: only a [str] equals one. *)
Definition pyval_in_strs (v : pyval) (l : list string) : bool :=
  match v with
  | PyStr s => PyStr.mem s l
  | _ => false
  end.

(** A stream captured from a subprocess: [str] in text mode, [bytes]
    otherwise. *)
Inductive captured : Type :=
| CapStr (s : string)
| CapBytes (b : string).

(** [bool(c)]: a captured stream is true when it is not empty. *)
Definition nonempty (c : captured) : bool :=
  match c with
  | CapStr s => negb (String.eqb s "")
  | CapBytes b => negb (String.eqb b "")
  end.

(** The text of the [AttributeError] for [.decode] on a [str]. *)
Definition decode_exn : string := "'str' object has no attribute 'decode'".

(** The exceptions the modelled code raises or lets through. *)
Inductive Exn : Type :=
| DownloadError (msg : string)
| TimeoutExpired (cmd : list string)
| CalledProcessError (returncode : Z) (cmd : list string) (stderr : captured)
| AttributeError (msg : string)
| TypeError (msg : string)
| OSError (msg : string)
| BadRequest (msg : string).

Inductive Result (A : Type) : Type :=
| Ok (a : A)
| Raise (e : Exn).
Arguments Ok {A} a.
Arguments Raise {A} e.

(** ** URL validation *)

(** [ALLOWED_DOMAINS] *)
Definition ALLOWED_DOMAINS : list string :=
  ["soundcloud.com"; "on.soundcloud.com"; "m.soundcloud.com"].

(** The part of [urllib.parse.ParseResult] the program reads. *)
Record ParseResult : Type := mkParseResult {
  scheme : string;
  netloc : string;
  rest : string
}.

Section Validation.

(** [validators.url(url)] as a truth value. *)
Variable validators_url : string -> bool.
(** [urllib.parse.urlparse], taken as total: the [ValueError] it raises on
    a network location with unbalanced brackets is outside the model. *)
Variable urlparse : string -> ParseResult.

Definition validate_soundcloud_url (url : string) : bool * string :=
  if negb (validators_url url) then (false, "Invalid URL format")
  else
    let parsed := urlparse url in
    if negb (PyStr.mem (PyStr.lower (netloc parsed)) ALLOWED_DOMAINS)
    then (false, "URL must be from SoundCloud")
    else (true, "Valid URL").

End Validation.

(** ** [urllib.parse]: the network location of a URL

    [urlsplit] on its main path: an initial run of scheme characters that
    ends in a colon is the scheme; when what follows starts with two
    slashes, the network location runs up to the first slash, question mark
    or hash.  The removal of TAB, CR and LF and the [ValueError] on
    unbalanced brackets are not covered: the model is applied to concrete
    URLs that have neither. *)
Module Urllib.

Definition is_alpha (c : ascii) : bool :=
  let n := nat_of_ascii c in
  (((65 <=? n) && (n <=? 90)) || ((97 <=? n) && (n <=? 122)))%nat.

Definition is_scheme_char (c : ascii) : bool :=
  let n := nat_of_ascii c in
  (is_alpha c || ((48 <=? n) && (n <=? 57)) || (n =? 43) || (n =? 45) || (n =? 46))%nat.

Fixpoint has (c : ascii) (s : string) : bool :=
  match s with
  | EmptyString => false
  | String a s' => Ascii.eqb a c || has c s'
  end.

(** [s.partition(c)[0]] *)
Fixpoint before_first (c : ascii) (s : string) : string :=
  match s with
  | EmptyString => EmptyString
  | String a s' => if Ascii.eqb a c then EmptyString else String a (before_first c s')
  end.

(** [s.partition(c)[2]] *)
Fixpoint after_first (c : ascii) (s : string) : string :=
  match s with
  | EmptyString => EmptyString
  | String a s' => if Ascii.eqb a c then s' else after_first c s'
  end.

(** [s.rpartition(c)[2]] *)
Fixpoint after_last (c : ascii) (s : string) : string :=
  match s with
  | EmptyString => EmptyString
  | String a s' =>
      if has c s' then after_last c s'
      else if Ascii.eqb a c then s' else s
  end.

Fixpoint all_chars (p : ascii -> bool) (s : string) : bool :=
  match s with
  | EmptyString => true
  | String a s' => p a && all_chars p s'
  end.

(** The text up to the first of [/], [?] and [#], and what is left. *)
Fixpoint splitnetloc (s : string) : string * string :=
  match s with
  | EmptyString => (EmptyString, EmptyString)
  | String a s' =>
      if Ascii.eqb a "/" || Ascii.eqb a "?" || Ascii.eqb a "#" then (EmptyString, s)
      else let (n, r) := splitnetloc s' in (String a n, r)
  end.

Definition urlparse (url : string) : ParseResult :=
  let pre := before_first ":" url in
  let '(sch, url1) :=
    match pre with
    | String c0 _ =>
        if has ":" url && is_alpha c0 && all_chars is_scheme_char pre
        then (PyStr.lower pre, after_first ":" url)
        else (EmptyString, url)
    | EmptyString => (EmptyString, url)
    end in
  match url1 with
  | String "/" (String "/" url2) =>
      let (n, r) := splitnetloc url2 in mkParseResult sch n r
  | _ => mkParseResult sch EmptyString url1
  end.

(** [ParseResult.hostname] for a network location without brackets or
    zone: what follows the last [@], up to the first colon, lower-cased. *)
Definition hostname (n : string) : string :=
  PyStr.lower (before_first ":" (after_last "@" n)).

(** The text of an explicit port: what follows the first colon after the
    user information. *)
Definition port_text (n : string) : string :=
  after_first ":" (after_last "@" n).

End Urllib.

(** ** The process environment *)

(** An entry of the output directory: its name, whether it is a regular
    file ([os.path.isfile]), its size in bytes and its last-modified time. *)
Record File : Type := mkFile {
  fname : string;
  is_file : bool;
  fsize : Z;
  mtime : float
}.

(** What the program can observe or change during a request.
    - [fs]: the entries of [DOWNLOADS_DIR], in [os.listdir] order;
    - [launched]: the command lines handed to [subprocess.run] so far,
      whether or not the program could be started;
    - [calls]: the arguments of every entry into
      [download_soundcloud_to_mp3] so far (a history variable, not program
      state);
    - [timers]: the [threading.Timer]s started, as delay and file path;
    - [session_downloads]: [session['downloads']], absent until first set. *)
Record World : Type := mkWorld {
  fs : list File;
  launched : list (list string);
  calls : list (string * string * pyval);
  timers : list (float * string);
  session_downloads : option (list (string * float))
}.

Definition set_fs (d : list File) (w : World) : World :=
  mkWorld d (launched w) (calls w) (timers w) (session_downloads w).

(** How a run of the external tool ends: with an exit status and its
    captured output, by running out of time, or without a process because
    the program could not be started ([FileNotFoundError],
    [PermissionError]); [reason] is the text of that [OSError].  The
    captured streams are the texts Python decoded from them: the tool
    writes UTF-8. *)
Inductive ToolOutcome : Type :=
| Exited (returncode : Z) (stdout stderr : string)
| TimedOut
| CannotStart (reason : string).

(** The answers of the environment during one request.
    - [which name]: whether [shutil.which(name)] finds an executable;
    - [uuid4]: [str(uuid.uuid4())];
    - [strftime_now]: [datetime.now().strftime("%Y%m%d_%H%M%S")];
    - [time_time]: [time.time()];
    - [run cmd d]: what the subprocess [cmd] does when the output directory
      is [d]: how it ends and the directory it leaves; the directory is
      not read when the program could not be started. *)
Record Env : Type := mkEnv {
  which : string -> bool;
  uuid4 : string;
  strftime_now : string;
  time_time : float;
  run : list string -> list File -> ToolOutcome * list File
}.

(** ** Computations: state and exceptions *)

Definition M (A : Type) : Type := World -> Result A * World.

Definition ret {A} (a : A) : M A := fun w => (Ok a, w).

Definition raise {A} (e : Exn) : M A := fun w => (Raise e, w).

Definition bind {A B} (m : M A) (k : A -> M B) : M B :=
  fun w =>
    match m w with
    | (Ok a, w') => k a w'
    | (Raise e, w') => (Raise e, w')
    end.

(** [try: body / except ...: handler]: the handler sees the exception the
    body raised; what the handler raises is not handled again. *)
Definition try_except {A} (body : M A) (handler : Exn -> M A) : M A :=
  fun w =>
    match body w with
    | (Ok a, w') => (Ok a, w')
    | (Raise e, w') => handler e w'
    end.

Definition lift {A} (r : Result A) : M A := fun w => (r, w).

Definition modify (f : World -> World) : M unit := fun w => (Ok tt, f w).

Declare Scope py_scope.
Delimit Scope py_scope with py.
Notation "x <- m ;; k" := (bind m (fun x => k))
  (at level 61, m at next level, right associativity) : py_scope.
Notation "m ;;; k" := (bind m (fun _ => k))
  (at level 61, right associativity) : py_scope.
Open Scope py_scope.

(** ** The output directory

    Every path the program touches is [os.path.join(DOWNLOADS_DIR, name)]
    for a [name] that [os.listdir(DOWNLOADS_DIR)] returned, so the
    operations below are keyed by the name inside the directory.  They
    fail as the system calls do on a missing path and, for [os.remove], on
    a directory; permission and device errors are outside the model. *)
Module Os.

(** [os.path.join(a, b)] (POSIX) *)
Definition path_join (a b : string) : string :=
  if PyStr.startswith b "/" then b
  else if String.eqb a "" || PyStr.endswith a "/" then a ++ b
  else a ++ "/" ++ b.

Definition lookup (name : string) (d : list File) : option File :=
  find (fun f => String.eqb (fname f) name) d.

(** [os.listdir(DOWNLOADS_DIR)] *)
Definition listdir : M (list string) :=
  fun w => (Ok (map fname (fs w)), w).

(** [os.path.isfile(path)] *)
Definition isfile (name : string) : M bool :=
  fun w =>
    (Ok match lookup name (fs w) with Some f => is_file f | None => false end, w).

(** [os.path.exists(path)] *)
Definition exists_ (name : string) : M bool :=
  fun w =>
    (Ok match lookup name (fs w) with Some _ => true | None => false end, w).

(** [os.path.getsize(path)] *)
Definition getsize (name : string) : M Z :=
  fun w =>
    match lookup name (fs w) with
    | Some f => (Ok (fsize f), w)
    | None => (Raise (OSError "No such file or directory"), w)
    end.

(** [os.path.getmtime(path)] *)
Definition getmtime (name : string) : M float :=
  fun w =>
    match lookup name (fs w) with
    | Some f => (Ok (mtime f), w)
    | None => (Raise (OSError "No such file or directory"), w)
    end.

(** [os.remove(path)]: unlinks a regular file; fails on a directory and
    on a missing path. *)
Definition remove (name : string) : M unit :=
  fun w =>
    match lookup name (fs w) with
    | Some f =>
        if is_file f
        then (Ok tt, set_fs (filter (fun g => negb (String.eqb (fname g) name)) (fs w)) w)
        else (Raise (OSError "Is a directory"), w)
    | None => (Raise (OSError "No such file or directory"), w)
    end.

End Os.

(** ** The download pipeline *)

(** The dict [download_soundcloud_to_mp3] returns. *)
Record DownloadResult : Type := mkDownloadResult {
  success : bool;
  filename : string;
  file_size : Z;
  message : string
}.

Section Pipeline.

Variable validators_url : string -> bool.
Variable urlparse : string -> ParseResult.

(** Configuration read from the process environment at start-up. *)
Variable DOWNLOADS_DIR : string.
Variable MAX_FILE_SIZE : Z.

(** [str(e)] for the two exceptions of [subprocess], whose text quotes
    the command line. *)
Variable CalledProcessError_str : Z -> list string -> string.
Variable TimeoutExpired_str : list string -> string.

Variable env : Env.

(** [str(e)] *)
Definition exn_str (e : Exn) : string :=
  match e with
  | DownloadError m => m
  | TimeoutExpired cmd => TimeoutExpired_str cmd
  | CalledProcessError rc cmd _ => CalledProcessError_str rc cmd
  | AttributeError m => m
  | TypeError m => m
  | OSError m => m
  | BadRequest m => m
  end.

Definition check_dependencies : list string :=
  (if negb (which env "yt-dlp") then ["yt-dlp"] else [])
  ++ (if negb (which env "ffmpeg") then ["ffmpeg"] else []).

(** The argument vector of a command, when every element is a [str]. *)
Fixpoint argv (command : list pyval) : option (list string) :=
  match command with
  | [] => Some []
  | PyStr s :: l => option_map (cons s) (argv l)
  | _ :: _ => None
  end.

(** [subprocess.run(command, capture_output=True, text=text,
    timeout=..., check=True)]: returns the captured output, as [str] in
    text mode and as [bytes] otherwise; a timeout raises [TimeoutExpired], a
    nonzero exit status raises [CalledProcessError] carrying the captured
    error stream; a program that cannot be started raises [OSError] and
    leaves the directory as it is; an argument that is not a string raises
    [TypeError] before any process is started. *)
Definition subprocess_run (command : list pyval) (text : bool)
  : M (captured * captured) :=
  fun w =>
    match argv command with
    | None => (Raise (TypeError "expected str, bytes or os.PathLike object"), w)
    | Some cmd =>
        let (outcome, d) := run env cmd (fs w) in
        let w' := mkWorld d (launched w ++ [cmd]) (calls w) (timers w)
                          (session_downloads w) in
        let capture := fun s => if text then CapStr s else CapBytes s in
        match outcome with
        | CannotStart reason =>
            (Raise (OSError reason),
             mkWorld (fs w) (launched w ++ [cmd]) (calls w) (timers w)
                     (session_downloads w))
        | TimedOut => (Raise (TimeoutExpired cmd), w')
        | Exited rc out err =>
            if (rc =? 0)%Z then (Ok (capture out, capture err), w')
            else (Raise (CalledProcessError rc cmd (capture err)), w')
        end
    end.

(** [c.decode()]: [bytes] has the method, [str] has not. *)
Definition decode (c : captured) : Result string :=
  match c with
  | CapBytes b => Ok b
  | CapStr _ => Raise (AttributeError decode_exn)
  end.

(** The prefix of the names the tool is asked to write:
    [f"{timestamp}_{job_id}"]. *)
Definition file_prefix : string :=
  strftime_now env ++ "_" ++ PyStr.take 8 (uuid4 env).

(** The [yt-dlp] command line. *)
Definition build_command (soundcloud_url audio_format : string) (quality : pyval)
  : list pyval :=
  let job_id := PyStr.take 8 (uuid4 env) in
  let timestamp := strftime_now env in
  let output_template :=
    DOWNLOADS_DIR ++ "/" ++ timestamp ++ "_" ++ job_id ++ "_%(title)s.%(ext)s" in
  [PyStr "yt-dlp";
   PyStr "--extract-audio";
   PyStr "--audio-format"; PyStr (PyStr.lower audio_format);
   PyStr "--output"; PyStr output_template;
   PyStr "--no-playlist";
   PyStr "--max-filesize"; PyStr (PyStr.of_Z MAX_FILE_SIZE);
   PyStr soundcloud_url]
  ++ (if String.eqb (PyStr.lower audio_format) "mp3"
      then [PyStr "--audio-quality"; quality] else []).

(** The test of the list comprehension over [os.listdir]. *)
Definition is_download (audio_format f : string) : bool :=
  PyStr.startswith f file_prefix
  && PyStr.endswith f ("." ++ PyStr.lower audio_format).

(** The body of the [try] statement of [download_soundcloud_to_mp3]. *)
Definition download_body (soundcloud_url audio_format : string) (quality : pyval)
  : M DownloadResult :=
  let '(is_valid, msg) := validate_soundcloud_url validators_url urlparse soundcloud_url in
  if negb is_valid then raise (DownloadError msg)
  else
    let missing_deps := check_dependencies in
    match missing_deps with
    | _ :: _ =>
        raise (DownloadError ("Missing dependencies: " ++ PyStr.join ", " missing_deps))
    | [] =>
        let command := build_command soundcloud_url audio_format quality in
        _ <- subprocess_run command true ;;
        names <- Os.listdir ;;
        let downloaded_files := filter (is_download audio_format) names in
        match downloaded_files with
        | [] => raise (DownloadError "File not found after download")
        | filename :: _ =>
            file_size <- Os.getsize filename ;;
            if (file_size >? MAX_FILE_SIZE)%Z
            then Os.remove filename ;;; raise (DownloadError "File too large")
            else ret (mkDownloadResult true filename file_size
                                       "Download completed successfully")
        end
    end.

(** The [except] clauses of [download_soundcloud_to_mp3], tried in
    order. *)
Definition download_handlers (e : Exn) : M DownloadResult :=
  match e with
  | TimeoutExpired _ =>
      raise (DownloadError "Download timeout - file may be too large or connection slow")
  | CalledProcessError _ _ stderr =>
      error_msg <- lift (if nonempty stderr then decode stderr else Ok (exn_str e)) ;;
      if PyStr.contains "Private video" error_msg
         || PyStr.contains "not available" error_msg
      then raise (DownloadError "Track is private or not available")
      else if PyStr.contains "Unsupported URL" error_msg
      then raise (DownloadError "Unsupported SoundCloud URL")
      else raise (DownloadError ("Download failed: " ++ error_msg))
  | _ => raise (DownloadError ("Unexpected error: " ++ exn_str e))
  end.

Definition record_call (soundcloud_url audio_format : string) (quality : pyval) : M unit :=
  modify (fun w => mkWorld (fs w) (launched w)
                           (calls w ++ [(soundcloud_url, audio_format, quality)])
                           (timers w) (session_downloads w)).

Definition download_soundcloud_to_mp3
           (soundcloud_url audio_format : string) (quality : pyval)
  : M DownloadResult :=
  record_call soundcloud_url audio_format quality ;;;
  try_except (download_body soundcloud_url audio_format quality) download_handlers.

End Pipeline.

(** ** The request handlers *)

Inductive Method : Type := GET | POST.

(** The body of a request: a parsed JSON document ([request.is_json] and
    [request.get_json()] succeeds), a JSON content type whose body does not
    parse, or form fields ([request.form]). *)
Inductive Body : Type :=
| JsonBody (v : pyval)
| MalformedJson
| FormBody (fields : list (string * string)).

Record Request : Type := mkRequest {
  method : Method;
  body : Body
}.

(** What a view function returns. *)
Inductive Response : Type :=
| RenderTemplate (name : string)
| Jsonify (payload : list (string * pyval)) (status : Z)
| SendFile (path download_name mimetype : string).

(** [jsonify({"error": msg}), status] *)
Definition json_error (msg : string) (status : Z) : Response :=
  Jsonify [("error", PyStr msg)] status.

Definition status_of (r : Response) : Z :=
  match r with
  | Jsonify _ st => st
  | _ => 200
  end.

Module Py.

Fixpoint assoc {A} (k : string) (d : list (string * A)) : option A :=
  match d with
  | [] => None
  | (k', v) :: d' => if String.eqb k' k then Some v else assoc k d'
  end.

(** [data.get(key, default)]: defined on a dict (and on the form's
    multi-dict, whose values are strings). *)
Definition get (data : pyval) (key : string) (default : pyval) : Result pyval :=
  match data with
  | PyDict d => Ok match assoc key d with Some v => v | None => default end
  | _ => Raise (AttributeError "object has no attribute 'get'")
  end.

(** [v.strip()] *)
Definition strip (v : pyval) : Result string :=
  match v with
  | PyStr s => Ok (PyStr.strip s)
  | _ => Raise (AttributeError "object has no attribute 'strip'")
  end.

(** [v.lower()] *)
Definition lower (v : pyval) : Result string :=
  match v with
  | PyStr s => Ok (PyStr.lower s)
  | _ => Raise (AttributeError "object has no attribute 'lower'")
  end.

End Py.

(** [request.get_json() if request.is_json else request.form] *)
Definition request_data (req : Request) : Result pyval :=
  match body req with
  | JsonBody v => Ok v
  | MalformedJson => Raise (BadRequest "Failed to decode JSON object")
  | FormBody fields => Ok (PyDict (map (fun kv => (fst kv, PyStr (snd kv))) fields))
  end.

Section Handlers.

Variable validators_url : string -> bool.
Variable urlparse : string -> ParseResult.
Variable DOWNLOADS_DIR : string.
Variable MAX_FILE_SIZE : Z.
Variable CalledProcessError_str : Z -> list string -> string.
Variable TimeoutExpired_str : list string -> string.
Variable env : Env.

Let pipeline := download_soundcloud_to_mp3 validators_url urlparse DOWNLOADS_DIR
                  MAX_FILE_SIZE CalledProcessError_str TimeoutExpired_str env.

(** The quality handed to the pipeline. *)
Definition effective_quality (audio_format : string) (quality : pyval) : pyval :=
  if String.eqb audio_format "mp3"
     && negb (pyval_in_strs quality ["128"; "192"; "256"; "320"])
  then PyStr "192" else quality.

(** [session['downloads'].append({...})], creating the list first when
    the session has none. *)
Definition session_append (filename : string) : M unit :=
  modify (fun w =>
    let old := match session_downloads w with Some l => l | None => [] end in
    mkWorld (fs w) (launched w) (calls w) (timers w)
            (Some (old ++ [(filename, time_time env)])%list)).

(** [threading.Timer(delay, remove_file, args=[file_path]).start()] *)
Definition timer_start (delay : float) (file_path : string) : M unit :=
  modify (fun w =>
    mkWorld (fs w) (launched w) (calls w) (timers w ++ [(delay, file_path)])
            (session_downloads w)).

(** [remove_file(filepath)], the function the timer calls when it fires:
    the file is removed when it exists, and whatever the attempt raises is
    caught. *)
Definition remove_file (filename : string) : M unit :=
try_except
  (present <- Os.exists_ filename ;;
   if present then Os.remove filename else ret tt)
  (fun _ => ret tt).

(** [send_file(file_path, ...)]: the response object, or an error when
    there is no such regular file. *)
Definition send_file (filename file_path mimetype : string) : M Response :=
  isf <- Os.isfile filename ;;
  if isf then ret (SendFile file_path filename mimetype)
  else raise (OSError "No such file or directory").

(** The body of the [try] statement of the [POST] branch. *)
Definition download_route_post (req : Request) : M Response :=
  data <- lift (request_data req) ;;
  u <- lift (Py.get data "url" (PyStr "")) ;;
  soundcloud_url <- lift (Py.strip u) ;;
  f <- lift (Py.get data "format" (PyStr "mp3")) ;;
  audio_format <- lift (Py.lower f) ;;
  quality <- lift (Py.get data "quality" (PyStr "192")) ;;
  if String.eqb soundcloud_url ""
  then ret (json_error "Please provide a SoundCloud URL" 400)
  else if negb (PyStr.mem audio_format ["mp3"; "wav"; "aac"])
  then ret (json_error "Unsupported audio format" 400)
  else
    let quality := effective_quality audio_format quality in
    result <- pipeline soundcloud_url audio_format quality ;;
    if negb (success result)
    then ret (json_error (message result) 500)
    else
      let filename := filename result in
      let file_path := Os.path_join DOWNLOADS_DIR filename in
      session_append filename ;;;
      timer_start 60%float file_path ;;;
      send_file filename file_path ("audio/" ++ audio_format).

(** [download_route]: the view of [/] for [GET] and [POST]. *)
Definition download_route (req : Request) (w : World) : Response * World :=
  match method req with
  | GET => (RenderTemplate "index.html", w)
  | POST =>
      match download_route_post req w with
      | (Ok r, w') => (r, w')
      | (Raise (DownloadError m), w') => (json_error m 400, w')
      | (Raise _, w') => (json_error "An unexpected error occurred" 500, w')
      end
  end.

(** [health_check]: the view of [/health]; [isoformat_now] is
    [datetime.now().isoformat()]. *)
Definition health_check (isoformat_now : string) : Response :=
  let missing_deps := check_dependencies env in
  match missing_deps with
  | _ :: _ =>
      Jsonify [("status", PyStr "unhealthy");
               ("missing_dependencies", PyList (map PyStr missing_deps))] 503
  | [] =>
      Jsonify [("status", PyStr "healthy");
               ("timestamp", PyStr isoformat_now);
               ("dependencies", PyList [PyStr "yt-dlp"; PyStr "ffmpeg"])] 200
  end.

(** The loop of [cleanup_old_files] over the names [os.listdir]
    returned. *)
Fixpoint cleanup_loop (current_time : float) (names : list string) (cleaned : Z)
  : M Z :=
  match names with
  | [] => ret cleaned
  | filename :: names' =>
      isf <- Os.isfile filename ;;
      if isf then
        m <- Os.getmtime filename ;;
        if PrimFloat.ltb 3600%float (PrimFloat.sub current_time m)
        then Os.remove filename ;;; cleanup_loop current_time names' (cleaned + 1)%Z
        else cleanup_loop current_time names' cleaned
      else cleanup_loop current_time names' cleaned
  end.

(** [cleanup_old_files]: the view of [/cleanup]. *)
Definition cleanup_old_files (w : World) : Response * World :=
  let current_time := time_time env in
  match (names <- Os.listdir ;; cleanup_loop current_time names 0%Z) w with
  | (Ok cleaned, w') =>
      (Jsonify [("success", PyBool true); ("cleaned_files", PyInt cleaned)] 200, w')
  | (Raise _, w') => (json_error "Cleanup failed" 500, w')
  end.

End Handlers.

(** ** The fields of a request

    The three locals the [POST] branch reads off the request before any
    check: the stripped URL, the lower-cased format and the quality as
    given.  Reading fails when the JSON body is not a dict or when [url] or
    [format] is present and not a string. *)
Definition request_fields (req : Request) : Result (string * string * pyval) :=
  match request_data req with
  | Raise e => Raise e
  | Ok data =>
      match Py.get data "url" (PyStr "") with
      | Raise e => Raise e
      | Ok u =>
          match Py.strip u with
          | Raise e => Raise e
          | Ok soundcloud_url =>
              match Py.get data "format" (PyStr "mp3") with
              | Raise e => Raise e
              | Ok f =>
                  match Py.lower f with
                  | Raise e => Raise e
                  | Ok audio_format =>
                      match Py.get data "quality" (PyStr "192") with
                      | Raise e => Raise e
                      | Ok quality => Ok (soundcloud_url, audio_format, quality)
                      end
                  end
              end
          end
      end
  end.

(** The raw [format] field of a request, when the body is a dict that has
    one. *)
Definition format_field (req : Request) : option pyval :=
  match request_data req with
  | Ok (PyDict d) => Py.assoc "format" d
  | _ => None
  end.

(** ** Directory predicates used in the statements *)

(** A file the sweep removes at time [now]: a regular file modified more
    than 3600 seconds before. *)
Definition stale (now : float) (f : File) : bool :=
  is_file f && PrimFloat.ltb 3600%float (PrimFloat.sub now (mtime f)).

Definition fresh (now : float) (f : File) : bool := negb (stale now f).

(** The world once [download_soundcloud_to_mp3] has been entered with the
    given arguments: only the history of calls grows. *)
Definition called (u f : string) (q : pyval) (w : World) : World :=
  mkWorld (fs w) (launched w) (calls w ++ [(u, f, q)]) (timers w) (session_downloads w).

(** The world once the subprocess [cmd] has run and left the directory
    [d]. *)
Definition started (cmd : list string) (d : list File) (w : World) : World :=
  mkWorld d (launched w ++ [cmd]) (calls w) (timers w) (session_downloads w).

(** The directory after a run of the tool that found it as [dir]: the
    directory [d] the tool leaves, or [dir] itself when the program could
    not be started. *)
Definition directory_after (outcome : ToolOutcome) (d dir : list File) : list File :=
  match outcome with
  | CannotStart _ => dir
  | _ => d
  end.

(** The directory without the entry called [name]. *)
Definition without (name : string) (d : list File) : list File :=
  filter (fun g => negb (String.eqb (fname g) name)) d.

(** The steps of the [POST] branch once the pipeline has returned
    [result]: the session entry, the timer and the file response. *)
Definition deliver (DOWNLOADS_DIR : string) (env : Env) (audio_format : string)
           (result : DownloadResult) : M Response :=
  if negb (success result)
  then ret (json_error (message result) 500)
  else
    let filename := filename result in
    let file_path := Os.path_join DOWNLOADS_DIR filename in
    session_append env filename ;;;
    timer_start 60%float file_path ;;;
    send_file filename file_path ("audio/" ++ audio_format).

(** The conditions under which the pipeline, called with [u], [f] and [q]
    in the world [w], hands the command line [cmd] to [subprocess.run],
    where the environment answers with [outcome] and the directory [d]:
    the URL is valid, both tools are installed, and [cmd] is the command
    line built from the arguments. *)
Definition tool_ran (validators_url : string -> bool) (urlparse : string -> ParseResult)
           (DOWNLOADS_DIR : string) (MAX_FILE_SIZE : Z) (env : Env)
           (u f : string) (q : pyval) (w : World)
           (cmd : list string) (outcome : ToolOutcome) (d : list File) : Prop :=
  fst (validate_soundcloud_url validators_url urlparse u) = true
  /\ check_dependencies env = []
  /\ argv (build_command DOWNLOADS_DIR MAX_FILE_SIZE env u f q) = Some cmd
  /\ run env cmd (fs w) = (outcome, d).

(** ** Concrete collaborators for the scenarios *)
Module Scenario.

(** A stand-in for [validators.url] on the URLs of the scenarios: an
    [http], [https] or [ftp] URL without white space whose host has a
    dot. *)
Definition validators_url (url : string) : bool :=
  let p := Urllib.urlparse url in
  PyStr.mem (scheme p) ["http"; "https"; "ftp"]
  && Urllib.has "." (Urllib.hostname (netloc p))
  && Urllib.all_chars (fun c => negb (PyStr.isspace c)) url.

Definition DOWNLOADS_DIR : string := "./downloads".

Definition MAX_FILE_SIZE : Z := 100 * 1024 * 1024.

(** Stand-ins for the texts of the [subprocess] exceptions (Python prints
    the command as a list). *)
Definition CalledProcessError_str (rc : Z) (cmd : list string) : string :=
  "Command '" ++ PyStr.join " " cmd ++ "' returned non-zero exit status "
  ++ PyStr.of_Z rc ++ ".".

Definition TimeoutExpired_str (cmd : list string) : string :=
  "Command '" ++ PyStr.join " " cmd ++ "' timed out after 300 seconds".

(** An environment with both tools installed, a fixed token and clock,
    and the given behaviour of the subprocess. *)
Definition env_with (tool : list string -> list File -> ToolOutcome * list File) : Env :=
  mkEnv (fun _ => true) "ab12cd34-5e6f-4a7b-8c9d-0123456789ab" "20240101_120000"
        1704110400%float tool.

(** The tool runs into the timeout and leaves the directory as it was. *)
Definition tool_timeout (cmd : list string) (d : list File) : ToolOutcome * list File :=
  (TimedOut, d).

(** The tool exits with status 1 and the given error text. *)
Definition tool_fails (err : string) (cmd : list string) (d : list File)
  : ToolOutcome * list File :=
  (Exited 1 "" err, d).

(** The tool exits with status 0 and has written one file. *)
Definition tool_writes (name : string) (size : Z) (cmd : list string) (d : list File)
  : ToolOutcome * list File :=
  (Exited 0 "" "", (d ++ [mkFile name true size 1704110400%float])%list).

(** The tool exits with status 0 and has written nothing. *)
Definition tool_writes_nothing (cmd : list string) (d : list File)
  : ToolOutcome * list File :=
  (Exited 0 "" "", d).

(** The program cannot be started. *)
Definition tool_missing (cmd : list string) (d : list File) : ToolOutcome * list File :=
  (CannotStart "[Errno 2] No such file or directory: 'yt-dlp'", d).

(** U+00A0, the no-break space, and U+3000, the ideographic space, in
    UTF-8. *)
Definition nbsp : string :=
  String (ascii_of_nat 194) (String (ascii_of_nat 160) EmptyString).

Definition wide_space : string :=
  String (ascii_of_nat 227)
         (String (ascii_of_nat 128) (String (ascii_of_nat 128) EmptyString)).

Definition empty_world : World := mkWorld [] [] [] [] None.

Definition world_of (d : list File) : World := mkWorld d [] [] [] None.

Definition post_json (fields : list (string * pyval)) : Request :=
  mkRequest POST (JsonBody (PyDict fields)).

(** The pipeline and the handlers under the scenario's configuration. *)
Definition pipeline (e : Env) :=
  download_soundcloud_to_mp3 validators_url Urllib.urlparse DOWNLOADS_DIR MAX_FILE_SIZE
    CalledProcessError_str TimeoutExpired_str e.

Definition route (e : Env) :=
  download_route validators_url Urllib.urlparse DOWNLOADS_DIR MAX_FILE_SIZE
    CalledProcessError_str TimeoutExpired_str e.

Definition song : string := "20240101_120000_ab12cd34_Song.mp3".

Definition track : string := "https://soundcloud.com/a/b".

(** The argument vector the pipeline hands to the subprocess. *)
Definition command_line (e : Env) (u f : string) (q : pyval) : list string :=
  match argv (build_command DOWNLOADS_DIR MAX_FILE_SIZE e u f q) with
  | Some cmd => cmd
  | None => []
  end.

(** A file that was in the directory before the request. *)
Definition other : File := mkFile "other.txt" true 10 1704110000%float.

End Scenario.

(** ** Track information: [get_file_info] and the view of [/info] *)

Module PyLines.

Definition newline : ascii := ascii_of_nat 10.

(** [s.split(c)] for a one-character separator: the pieces between the
    occurrences of [c], empty pieces included; never the empty list. *)
Fixpoint split (c : ascii) (s : string) : list string :=
  match s with
  | EmptyString => [EmptyString]
  | String a s' =>
      if Ascii.eqb a c then EmptyString :: split c s'
      else match split c s' with
           | piece :: pieces => String a piece :: pieces
           | [] => [String a EmptyString]
           end
  end.

End PyLines.

(** The dict [get_file_info] returns. *)
Record FileInfo : Type := mkFileInfo {
  title : string;
  duration : string;
  uploader : string
}.

(** The three entries of the dict, each with its fall-back. *)
Definition file_info_of (lines : list string) : FileInfo :=
  mkFileInfo
    (if (0 <? length lines)%nat then nth 0 lines "" else "Unknown")
    (if (1 <? length lines)%nat then nth 1 lines "" else "Unknown")
    (if (2 <? length lines)%nat then nth 2 lines "" else "Unknown").

(** The command line of [get_file_info]. *)
Definition info_command (url : string) : list pyval :=
  [PyStr "yt-dlp";
   PyStr "--print"; PyStr "title";
   PyStr "--print"; PyStr "duration";
   PyStr "--print"; PyStr "uploader";
   PyStr "--no-download";
   PyStr url].

(** [result.stdout.strip().split('\n')]: defined on the [str] that text
    mode yields. *)
Definition stdout_lines (c : captured) : Result (list string) :=
  match c with
  | CapStr s => Ok (PyLines.split PyLines.newline (PyStr.strip s))
  | CapBytes _ => Raise (TypeError "a bytes-like object is required, not 'str'")
  end.

(** [get_file_info(url)]: [None] stands for Python's [None]. *)
Definition get_file_info (env : Env) (url : string) : M (option FileInfo) :=
  try_except
    (result <- subprocess_run env (info_command url) true ;;
     lines <- lift (stdout_lines (fst result)) ;;
     ret (Some (file_info_of lines)))
    (fun _ => ret None).

(** [x == 'url'] *)
Definition is_url_literal (v : pyval) : bool :=
  match v with
  | PyStr s => String.eqb s "url"
  | _ => false
  end.

(** The test [not data or 'url' not in data] followed by [data['url']]:
    [Ok None] when the test holds (the view answers "URL is required"),
    [Ok (Some v)] when [data] is a dict that maps ["url"] to [v].  A
    non-empty list or string passes the membership test when it contains
    ["url"] and then fails on the subscript; a number or [True] fails on
    the membership test itself. *)
Definition url_entry (data : pyval) : Result (option pyval) :=
  if negb (truthy data) then Ok None
  else
    match data with
    | PyDict d => Ok (Py.assoc "url" d)
    | PyList l =>
        if existsb is_url_literal l
        then Raise (TypeError "list indices must be integers or slices, not str")
        else Ok None
    | PyStr s =>
        if PyStr.contains "url" s
        then Raise (TypeError "string indices must be integers, not 'str'")
        else Ok None
    | _ => Raise (TypeError "argument is not iterable")
    end.

(** [jsonify]'s rendering of the dict of [get_file_info]. *)
Definition info_payload (i : FileInfo) : pyval :=
  PyDict [("title", PyStr (title i));
          ("duration", PyStr (duration i));
          ("uploader", PyStr (uploader i))].

Section Info.

Variable validators_url : string -> bool.
Variable urlparse : string -> ParseResult.
Variable env : Env.

(** What [request.get_json()] does when the content type of the request is
    not JSON: depending on the version of Flask it returns [None] or
    raises. *)
Variable get_json_of_form : Result pyval.

(** [request.get_json()] *)
Definition request_get_json (req : Request) : Result pyval :=
  match body req with
  | JsonBody v => Ok v
  | MalformedJson => Raise (BadRequest "Failed to decode JSON object")
  | FormBody _ => get_json_of_form
  end.

(** The body of the [try] statement of [get_track_info]. *)
Definition get_track_info_body (req : Request) : M Response :=
  data <- lift (request_get_json req) ;;
  entry <- lift (url_entry data) ;;
  match entry with
  | None => ret (json_error "URL is required" 400)
  | Some v =>
      url <- lift (Py.strip v) ;;
      let '(is_valid, msg) := validate_soundcloud_url validators_url urlparse url in
      if negb is_valid then ret (json_error msg 400)
      else
        info <- get_file_info env url ;;
        match info with
        | None => ret (json_error "Could not retrieve track information" 400)
        | Some i =>
            ret (Jsonify [("success", PyBool true); ("info", info_payload i)] 200)
        end
  end.

(** [get_track_info]: the view of [/info]. *)
Definition get_track_info (req : Request) (w : World) : Response * World :=
  match get_track_info_body req w with
  | (Ok r, w') => (r, w')
  | (Raise _, w') => (json_error "Failed to get track information" 500, w')
  end.

End Info.

(** ** [gunicorn.conf.py] *)
Module Gunicorn.

(** [workers], from [multiprocessing.cpu_count()]. *)
Definition workers (cpu_count : Z) : Z := Z.min (cpu_count * 2 + 1) 4.

End Gunicorn.

(** Collaborators for the scenarios of [/info]. *)
Module InfoScenario.

(** The tool exits with status 0 and has printed [out]. *)
Definition tool_prints (out : string) (cmd : list string) (d : list File)
  : ToolOutcome * list File :=
  (Exited 0 out "", d).

(** The view of [/info] under the scenario's configuration, for a Flask
    whose [get_json] returns [None] on a body that is not JSON. *)
Definition info (e : Env) :=
  get_track_info Scenario.validators_url Urllib.urlparse e (Ok PyNone).

Definition nl : string := String PyLines.newline EmptyString.

End InfoScenario.

(** [session['downloads']] read as a list: empty while the key is
    absent. *)
Definition session_list (w : World) : list (string * float) :=
  match session_downloads w with
  | Some l => l
  | None => []
  end.

(** Whether [name] denotes a regular file of the directory. *)
Definition regular_file (name : string) (d : list File) : bool :=
  match Os.lookup name d with
  | Some g => is_file g
  | None => false
  end.

(** The argument vector of [get_file_info]. *)
Definition info_argv (url : string) : list string :=
  ["yt-dlp"; "--print"; "title"; "--print"; "duration"; "--print"; "uploader";
   "--no-download"; url].

(** A line of output: no newline inside. *)
Definition one_line (s : string) : bool := negb (Urllib.has PyLines.newline s).

(** A text that is not empty and does not start with a white-space
    character. *)
Definition starts_solid (s : string) : bool :=
  negb (String.eqb s "") && String.eqb (PyStr.lstrip s) s.

(** A text that is not empty and does not end with a white-space
    character. *)
Definition ends_solid (s : string) : bool :=
  negb (String.eqb s "") && String.eqb (PyStr.rstrip s) s.

(** * Properties *)

(** ** Sanity checks of the embedding on concrete inputs *)

Example urlparse_track :
  Urllib.urlparse "https://soundcloud.com/a/b" = mkParseResult "https" "soundcloud.com" "/a/b".
Proof. reflexivity. Qed.

Example urlparse_port :
  Urllib.urlparse "HTTPS://SoundCloud.com:443/track?x=1"
  = mkParseResult "https" "SoundCloud.com:443" "/track?x=1".
Proof. reflexivity. Qed.

Example strip_ex : PyStr.strip "  a b  " = "a b".
Proof. reflexivity. Qed.

(** [strip] removes the white space of Unicode at both ends, and only
    there. *)
Example strip_unicode_white_space :
  PyStr.strip Scenario.nbsp = ""
  /\ PyStr.strip (Scenario.nbsp ++ " " ++ Scenario.track ++ Scenario.wide_space
                  ++ Scenario.nbsp)
     = Scenario.track
  /\ PyStr.strip ("a" ++ Scenario.nbsp ++ "b") = "a" ++ Scenario.nbsp ++ "b".
Proof. vm_compute. repeat split. Qed.

Example endswith_ex : PyStr.endswith "20240101_ab12cd34_Song.mp3" ".mp3" = true.
Proof. reflexivity. Qed.

Example contains_ex : PyStr.contains "not available" "ERROR: track is not available here" = true.
Proof. reflexivity. Qed.

Example of_Z_ex : PyStr.of_Z (100 * 1024 * 1024) = "104857600".
Proof. reflexivity. Qed.

Example validators_stand_in :
  map Scenario.validators_url
      ["https://soundcloud.com/a/b"; "https://evil.example.com/x";
       "https://soundcloud.com:443/track"; "not a url"]
  = [true; true; true; false].
Proof. reflexivity. Qed.

(** The scenario of the specification: the tool writes an mp3 of 50000
    bytes under the generated prefix and the pipeline returns it. *)
Example pipeline_success :
  fst (Scenario.pipeline (Scenario.env_with (Scenario.tool_writes Scenario.song 50000))
         "https://soundcloud.com/a/b" "mp3" (PyStr "320") Scenario.empty_world)
  = Ok (mkDownloadResult true Scenario.song 50000 "Download completed successfully").
Proof. vm_compute. reflexivity. Qed.

Example route_success :
  fst (Scenario.route (Scenario.env_with (Scenario.tool_writes Scenario.song 50000))
         (Scenario.post_json [("url", PyStr " https://soundcloud.com/a/b ")])
         Scenario.empty_world)
  = SendFile "./downloads/20240101_120000_ab12cd34_Song.mp3" Scenario.song "audio/mp3".
Proof. vm_compute. reflexivity. Qed.

(** ** The URL validator *)

Lemma lower_ascii_colon (a : ascii) :
  Ascii.eqb (PyStr.lower_ascii a) ":" = Ascii.eqb a ":".
Proof. destruct a as [[] [] [] [] [] [] [] []]; reflexivity. Qed.

Lemma lower_ascii_at (a : ascii) :
  Ascii.eqb (PyStr.lower_ascii a) "@" = Ascii.eqb a "@".
Proof. destruct a as [[] [] [] [] [] [] [] []]; reflexivity. Qed.

Lemma has_lower (c : ascii) :
  (forall a, Ascii.eqb (PyStr.lower_ascii a) c = Ascii.eqb a c) ->
  forall s, Urllib.has c (PyStr.lower s) = Urllib.has c s.
Proof.
  intros Hc s. induction s as [|a s IH]; simpl.
  - reflexivity.
  - now rewrite Hc, IH.
Qed.

Lemma before_first_absent (c : ascii) (s : string) :
  Urllib.has c s = false -> Urllib.before_first c s = s.
Proof.
  induction s as [|a s IH]; simpl; intros H.
  - reflexivity.
  - apply orb_false_iff in H as [Ha Hs]. rewrite Ha. now rewrite IH.
Qed.

Lemma after_last_absent (c : ascii) (s : string) :
  Urllib.has c s = false -> Urllib.after_last c s = s.
Proof.
  destruct s as [|a s]; simpl; intros H.
  - reflexivity.
  - apply orb_false_iff in H as [Ha Hs]. now rewrite Hs, Ha.
Qed.

Lemma mem_true_iff (x : string) (l : list string) :
  PyStr.mem x l = true <-> In x l.
Proof.
  unfold PyStr.mem. rewrite existsb_exists. split.
  - intros [y [Hy He]]. apply String.eqb_eq in He. now subst.
  - intros H. exists x. split; [assumption | apply String.eqb_refl].
Qed.

(** A network location that is allow-listed once lower-cased has neither
    user information nor port. *)
Lemma allowed_netloc_is_bare (n : string) :
  PyStr.mem (PyStr.lower n) ALLOWED_DOMAINS = true ->
  Urllib.has ":" n = false /\ Urllib.has "@" n = false.
Proof.
  intros H.
  assert (Hc : Urllib.has ":" (PyStr.lower n) = false
               /\ Urllib.has "@" (PyStr.lower n) = false).
  { apply mem_true_iff in H. simpl in H.
    destruct H as [H | [H | [H | []]]]; rewrite <- H; split; reflexivity. }
  destruct Hc as [Hcolon Hat].
  rewrite (has_lower ":" lower_ascii_colon) in Hcolon.
  rewrite (has_lower "@" lower_ascii_at) in Hat.
  now split.
Qed.

(** Its host name is therefore the location itself. *)
Lemma hostname_of_allowed_netloc (n : string) :
  PyStr.mem (PyStr.lower n) ALLOWED_DOMAINS = true ->
  Urllib.hostname n = PyStr.lower n.
Proof.
  intros H. destruct (allowed_netloc_is_bare n H) as [Hcolon Hat].
  unfold Urllib.hostname.
  rewrite (after_last_absent _ _ Hat), (before_first_absent _ _ Hcolon).
  reflexivity.
Qed.

(** Whichever way the host of a URL is read, as the network location the
    validator compares or as the host name inside it, a host outside the
    allow-list makes the validator's membership test fail. *)
Lemma unlisted_host_unlisted_netloc (n : string) :
  PyStr.mem (PyStr.lower n) ALLOWED_DOMAINS = false
  \/ PyStr.mem (Urllib.hostname n) ALLOWED_DOMAINS = false ->
  PyStr.mem (PyStr.lower n) ALLOWED_DOMAINS = false.
Proof.
  intros [H | H]; [assumption|].
  destruct (PyStr.mem (PyStr.lower n) ALLOWED_DOMAINS) eqn:E; [|reflexivity].
  rewrite (hostname_of_allowed_netloc n E) in H. congruence.
Qed.

Section PipelineFacts.

Variable validators_url : string -> bool.
Variable urlparse : string -> ParseResult.
Variable DOWNLOADS_DIR : string.
Variable MAX_FILE_SIZE : Z.
Variable CalledProcessError_str : Z -> list string -> string.
Variable TimeoutExpired_str : list string -> string.
Variable env : Env.

Let validate := validate_soundcloud_url validators_url urlparse.
Let body := download_body validators_url urlparse DOWNLOADS_DIR MAX_FILE_SIZE env.
Let handlers := download_handlers CalledProcessError_str TimeoutExpired_str.
Let pipeline := download_soundcloud_to_mp3 validators_url urlparse DOWNLOADS_DIR
                  MAX_FILE_SIZE CalledProcessError_str TimeoutExpired_str env.

Lemma validate_unlisted (url : string) :
  PyStr.mem (PyStr.lower (netloc (urlparse url))) ALLOWED_DOMAINS = false ->
  fst (validate url) = false.
Proof.
  intros H. unfold validate, validate_soundcloud_url.
  destruct (validators_url url); [|reflexivity].
  cbv zeta. cbn [negb]. rewrite H. reflexivity.
Qed.

(** The pipeline is its [try] body run in the world that records the
    call, with the [except] clauses applied to what the body raises. *)
Lemma pipeline_unfold (u f : string) (q : pyval) (w : World) :
  pipeline u f q w = try_except (body u f q) handlers (called u f q w).
Proof. reflexivity. Qed.

Lemma body_invalid (u f : string) (q : pyval) (w : World) :
  fst (validate u) = false ->
  body u f q w = (Raise (DownloadError (snd (validate u))), w).
Proof.
  intros H. unfold body, download_body. fold validate.
  destruct (validate u) as [v m]. simpl in H. subst v. reflexivity.
Qed.

Lemma pipeline_invalid (u f : string) (q : pyval) (w : World) :
  fst (validate u) = false ->
  pipeline u f q w
  = (Raise (DownloadError ("Unexpected error: " ++ snd (validate u))), called u f q w).
Proof.
  intros H. rewrite pipeline_unfold. unfold try_except.
  rewrite (body_invalid u f q _ H). reflexivity.
Qed.

End PipelineFacts.

(** C4: a URL whose host is not on the allow-list (lower-cased before the
    comparison) is rejected by the validator whatever its path and query,
    and the pipeline called with it raises the validator's message as a
    [DownloadError] without starting a subprocess or touching the output
    directory. *)
Theorem unlisted_host_is_rejected
        (validators_url : string -> bool) (urlparse : string -> ParseResult)
        (DOWNLOADS_DIR : string) (MAX_FILE_SIZE : Z)
        (CalledProcessError_str : Z -> list string -> string)
        (TimeoutExpired_str : list string -> string) (env : Env)
        (url audio_format : string) (quality : pyval) (w : World) :
  PyStr.mem (PyStr.lower (netloc (urlparse url))) ALLOWED_DOMAINS = false
  \/ PyStr.mem (Urllib.hostname (netloc (urlparse url))) ALLOWED_DOMAINS = false ->
  let verdict := validate_soundcloud_url validators_url urlparse url in
  let run := download_soundcloud_to_mp3 validators_url urlparse DOWNLOADS_DIR
               MAX_FILE_SIZE CalledProcessError_str TimeoutExpired_str env
               url audio_format quality w in
  fst verdict = false
  /\ fst run = Raise (DownloadError ("Unexpected error: " ++ snd verdict))
  /\ launched (snd run) = launched w
  /\ fs (snd run) = fs w.
Proof.
  intros H verdict run.
  apply unlisted_host_unlisted_netloc in H.
  pose proof (validate_unlisted validators_url urlparse url H) as Hv.
  split; [exact Hv|].
  subst run.
  rewrite (pipeline_invalid validators_url urlparse DOWNLOADS_DIR MAX_FILE_SIZE
             CalledProcessError_str TimeoutExpired_str env url audio_format quality w Hv).
  repeat split.
Qed.

Lemma unlisted_host_is_rejected_witness :
  let url := "https://evil.example.com/x?next=https://soundcloud.com/a#soundcloud.com" in
  let env := Scenario.env_with (Scenario.tool_writes Scenario.song 50000) in
  validate_soundcloud_url Scenario.validators_url Urllib.urlparse url
  = (false, "URL must be from SoundCloud")
  /\ fst (Scenario.pipeline env url "mp3" (PyStr "192") Scenario.empty_world)
     = Raise (DownloadError "Unexpected error: URL must be from SoundCloud")
  /\ launched (snd (Scenario.pipeline env url "mp3" (PyStr "192") Scenario.empty_world)) = []
  /\ fs (snd (Scenario.pipeline env url "mp3" (PyStr "192") Scenario.empty_world)) = [].
Proof.
  intros url env.
  split; [reflexivity|].
  exact (proj2 (unlisted_host_is_rejected Scenario.validators_url Urllib.urlparse
                  Scenario.DOWNLOADS_DIR Scenario.MAX_FILE_SIZE
                  Scenario.CalledProcessError_str Scenario.TimeoutExpired_str
                  env url "mp3" (PyStr "192") Scenario.empty_world
                  (or_introl eq_refl))).
Defined.

(** C10: the validator compares the whole network location, so a URL whose
    host is allow-listed but which names a port is rejected:
    [https://soundcloud.com:443/track] has the host [soundcloud.com], the
    port 443, and is invalid whatever [validators.url] says of it; and so
    is, for any parser, every URL whose network location has a colon. *)
Theorem allowed_host_with_port_is_rejected :
  (exists url : string,
      let n := netloc (Urllib.urlparse url) in
      n = "soundcloud.com:443"
      /\ Urllib.hostname n = "soundcloud.com"
      /\ Urllib.port_text n = "443"
      /\ PyStr.mem (Urllib.hostname n) ALLOWED_DOMAINS = true
      /\ forall validators_url : string -> bool,
           validate_soundcloud_url validators_url Urllib.urlparse url
           = (false, if validators_url url then "URL must be from SoundCloud"
                     else "Invalid URL format"))
  /\ (forall (validators_url : string -> bool) (urlparse : string -> ParseResult)
              (url : string),
         Urllib.has ":" (netloc (urlparse url)) = true ->
         fst (validate_soundcloud_url validators_url urlparse url) = false).
Proof.
  split.
  - exists "https://soundcloud.com:443/track". simpl.
    repeat split.
    intros v. unfold validate_soundcloud_url.
    destruct (v "https://soundcloud.com:443/track"); reflexivity.
  - intros v p url Hcolon.
    apply validate_unlisted.
    destruct (PyStr.mem (PyStr.lower (netloc (p url))) ALLOWED_DOMAINS) eqn:E;
      [|reflexivity].
    destruct (allowed_netloc_is_bare _ E) as [Hno _]. congruence.
Qed.

(** ** The steps of the pipeline *)

Section PipelineSteps.

Variable validators_url : string -> bool.
Variable urlparse : string -> ParseResult.
Variable DOWNLOADS_DIR : string.
Variable MAX_FILE_SIZE : Z.
Variable CalledProcessError_str : Z -> list string -> string.
Variable TimeoutExpired_str : list string -> string.
Variable env : Env.

Let validate := validate_soundcloud_url validators_url urlparse.
Let body := download_body validators_url urlparse DOWNLOADS_DIR MAX_FILE_SIZE env.
Let handlers := download_handlers CalledProcessError_str TimeoutExpired_str.
Let pipeline := download_soundcloud_to_mp3 validators_url urlparse DOWNLOADS_DIR
                  MAX_FILE_SIZE CalledProcessError_str TimeoutExpired_str env.
Let ran := tool_ran validators_url urlparse DOWNLOADS_DIR MAX_FILE_SIZE env.

Ltac enter_body H :=
  unfold ran, tool_ran in H;
  destruct H as (Hv & Hdeps & Hargv & Hrun);
  unfold body, download_body;
  destruct (validate_soundcloud_url _ _ _) as [v m]; simpl in Hv; subst v; cbn [negb];
  rewrite Hdeps;
  unfold bind at 1; unfold subprocess_run;
  rewrite Hargv, Hrun.

Lemma body_timeout u f q w cmd d :
  ran u f q w cmd TimedOut d ->
  body u f q w = (Raise (TimeoutExpired cmd), started cmd d w).
Proof. intros H. enter_body H. reflexivity. Qed.

Lemma body_nonzero u f q w cmd rc out err d :
  ran u f q w cmd (Exited rc out err) d ->
  rc <> 0%Z ->
  body u f q w = (Raise (CalledProcessError rc cmd (CapStr err)), started cmd d w).
Proof.
  intros H Hrc. enter_body H.
  apply Z.eqb_neq in Hrc. rewrite Hrc. reflexivity.
Qed.

Lemma body_not_found u f q w cmd out err d :
  ran u f q w cmd (Exited 0 out err) d ->
  filter (is_download env f) (map fname d) = [] ->
  body u f q w = (Raise (DownloadError "File not found after download"), started cmd d w).
Proof.
  intros H Hnone. enter_body H.
  cbn [Z.eqb]. unfold bind, Os.listdir. cbn [fs started].
  rewrite Hnone. reflexivity.
Qed.

Lemma body_found u f q w cmd out err d name others file :
  ran u f q w cmd (Exited 0 out err) d ->
  filter (is_download env f) (map fname d) = name :: others ->
  Os.lookup name d = Some file ->
  body u f q w
  = if (fsize file >? MAX_FILE_SIZE)%Z
    then if is_file file
         then (Raise (DownloadError "File too large"),
               set_fs (without name d) (started cmd d w))
         else (Raise (OSError "Is a directory"), started cmd d w)
    else (Ok (mkDownloadResult true name (fsize file) "Download completed successfully"),
          started cmd d w).
Proof.
  intros H Hsome Hfile. enter_body H.
  cbn [Z.eqb]. unfold bind, Os.listdir. cbn [fs started].
  rewrite Hsome. unfold Os.getsize. cbn [fs].
  rewrite Hfile.
  destruct (fsize file >? MAX_FILE_SIZE)%Z; [|reflexivity].
  unfold Os.remove. cbn [fs]. rewrite Hfile.
  destruct (is_file file); reflexivity.
Qed.

(** The first entry that passes the test of the list comprehension is
    the one [downloaded_files[0]] names, and the entry the path built
    from that name denotes. *)
Lemma first_download (P : string -> bool) (d : list File) (file : File) :
  find (fun g => P (fname g)) d = Some file ->
  exists others,
    filter P (map fname d) = fname file :: others
    /\ Os.lookup (fname file) d = Some file.
Proof.
  induction d as [|a d IH]; simpl; intros H; [discriminate|].
  destruct (P (fname a)) eqn:Pa.
  - injection H as <-. exists (filter P (map fname d)). split; [reflexivity|].
    unfold Os.lookup. simpl. now rewrite String.eqb_refl.
  - destruct (IH H) as (others & Hf & Hl). exists others. split; [assumption|].
    unfold Os.lookup. simpl.
    destruct (String.eqb (fname a) (fname file)) eqn:E; [|exact Hl].
    apply String.eqb_eq in E. apply find_some in H as [_ Pf].
    rewrite <- E in Pf. congruence.
Qed.

Lemma no_download (P : string -> bool) (d : list File) :
  (forall g, In g d -> P (fname g) = false) ->
  filter P (map fname d) = [].
Proof.
  induction d as [|a d IH]; simpl; intros H; [reflexivity|].
  rewrite (H a (or_introl eq_refl)). apply IH. intros g Hg. apply H. now right.
Qed.

Lemma lookup_without (name : string) (d : list File) :
  Os.lookup name (without name d) = None.
Proof.
  unfold Os.lookup, without.
  induction d as [|a d IH]; simpl; [reflexivity|].
  destruct (String.eqb (fname a) name) eqn:E; simpl; [exact IH|].
  now rewrite E.
Qed.

Lemma tool_ran_called u f q w cmd outcome d :
  ran u f q w cmd outcome d ->
  ran u f q (called u f q w) cmd outcome d.
Proof. intros H. exact H. Qed.

(** What the [except] clauses make of what the body raises. *)
Lemma handlers_timeout cmd w :
  handlers (TimeoutExpired cmd) w
  = (Raise (DownloadError "Download timeout - file may be too large or connection slow"), w).
Proof. reflexivity. Qed.

Lemma handlers_DownloadError m w :
  handlers (DownloadError m) w = (Raise (DownloadError ("Unexpected error: " ++ m)), w).
Proof. reflexivity. Qed.

Lemma handlers_text_stderr rc cmd err w :
  err <> "" ->
  handlers (CalledProcessError rc cmd (CapStr err)) w
  = (Raise (AttributeError decode_exn), w).
Proof.
  intros H. unfold handlers, download_handlers, bind, lift. cbn [nonempty].
  apply String.eqb_neq in H. rewrite H. reflexivity.
Qed.

(** Outside a nonzero exit of the tool, every exception of the body
    leaves the pipeline as a [DownloadError]. *)
Lemma handlers_wrap e w :
  (forall rc cmd c, e <> CalledProcessError rc cmd c) ->
  exists m, handlers e w = (Raise (DownloadError m), w).
Proof.
  intros H. destruct e; try (eexists; reflexivity).
  exfalso. eapply H. reflexivity.
Qed.

End PipelineSteps.

(** ** The outcomes of the pipeline *)

Section PipelineOutcomes.

Variable validators_url : string -> bool.
Variable urlparse : string -> ParseResult.
Variable DOWNLOADS_DIR : string.
Variable MAX_FILE_SIZE : Z.
Variable CalledProcessError_str : Z -> list string -> string.
Variable TimeoutExpired_str : list string -> string.
Variable env : Env.

Let pipeline := download_soundcloud_to_mp3 validators_url urlparse DOWNLOADS_DIR
                  MAX_FILE_SIZE CalledProcessError_str TimeoutExpired_str env.
Let ran := tool_ran validators_url urlparse DOWNLOADS_DIR MAX_FILE_SIZE env.

Ltac run_body lem :=
  unfold pipeline;
  rewrite pipeline_unfold; unfold try_except;
  rewrite lem.

(** C3: when the tool has exited with status 0 and the file the pipeline
    picks (the first directory entry carrying the prefix and the
    extension) is larger than [MAX_FILE_SIZE], the pipeline raises the
    file-too-large [DownloadError] and the file is gone from the
    directory: the rest of the directory is as the tool left it. *)
Theorem oversized_file_is_removed
        (u f : string) (q : pyval) (w : World) (cmd : list string)
        (out err : string) (d : list File) (file : File) :
  ran u f q w cmd (Exited 0 out err) d ->
  find (fun g => is_download env f (fname g)) d = Some file ->
  is_file file = true ->
  (fsize file > MAX_FILE_SIZE)%Z ->
  let r := pipeline u f q w in
  fst r = Raise (DownloadError "Unexpected error: File too large")
  /\ Os.lookup (fname file) (fs (snd r)) = None
  /\ fs (snd r) = without (fname file) d.
Proof.
  intros Hran Hfind Hfile Hsize r. subst r.
  destruct (first_download _ _ _ Hfind) as (others & Hf & Hl).
  run_body (body_found validators_url urlparse DOWNLOADS_DIR MAX_FILE_SIZE env
              u f q (called u f q w) cmd out err d (fname file) others file
              Hran Hf Hl).
  apply Z.gtb_gt in Hsize. rewrite Hsize, Hfile.
  cbn [fst snd fs set_fs download_handlers raise].
  repeat split. apply lookup_without.
Qed.

(** C7: when the tool has exited with status 0 and no entry of the output
    directory has a name that starts with the generated prefix and ends
    with the dot and the (lower-cased) format, the pipeline raises the
    file-not-found [DownloadError]. *)
Theorem missing_output_is_reported
        (u f : string) (q : pyval) (w : World) (cmd : list string)
        (out err : string) (d : list File) :
  ran u f q w cmd (Exited 0 out err) d ->
  (forall g, In g d ->
             PyStr.startswith (fname g) (file_prefix env) = true ->
             PyStr.endswith (fname g) ("." ++ PyStr.lower f) = false) ->
  fst (pipeline u f q w)
  = Raise (DownloadError "Unexpected error: File not found after download").
Proof.
  intros Hran Hnone.
  assert (Hfilter : filter (is_download env f) (map fname d) = []).
  { apply no_download. intros g Hg. unfold is_download.
    destruct (PyStr.startswith (fname g) (file_prefix env)) eqn:E; [|reflexivity].
    now rewrite (Hnone g Hg E). }
  run_body (body_not_found validators_url urlparse DOWNLOADS_DIR MAX_FILE_SIZE env
              u f q (called u f q w) cmd out err d Hran Hfilter).
  reflexivity.
Qed.

(** C1, as the code behaves: the tool's output is captured in text mode,
    so the error stream of a failed run is a [str]; when it is not empty
    the handler calls [.decode()] on it and the pipeline ends in an
    [AttributeError], whatever the text says: no classification takes
    place. *)
Theorem failed_tool_text_is_not_classified
        (u f : string) (q : pyval) (w : World) (cmd : list string)
        (rc : Z) (out err : string) (d : list File) :
  ran u f q w cmd (Exited rc out err) d ->
  rc <> 0%Z ->
  err <> "" ->
  fst (pipeline u f q w) = Raise (AttributeError decode_exn).
Proof.
  intros Hran Hrc Herr.
  run_body (body_nonzero validators_url urlparse DOWNLOADS_DIR MAX_FILE_SIZE env
              u f q (called u f q w) cmd rc out err d Hran Hrc).
  fold (download_handlers CalledProcessError_str TimeoutExpired_str).
  now rewrite handlers_text_stderr.
Qed.

End PipelineOutcomes.

Lemma oversized_file_is_removed_witness :
  let env := Scenario.env_with (Scenario.tool_writes Scenario.song 200000000) in
  let w := Scenario.world_of [Scenario.other] in
  let r := Scenario.pipeline env Scenario.track "mp3" (PyStr "192") w in
  fst r = Raise (DownloadError "Unexpected error: File too large")
  /\ Os.lookup Scenario.song (fs (snd r)) = None
  /\ fs (snd r) = [Scenario.other].
Proof.
  intros env w r.
  apply (oversized_file_is_removed
           Scenario.validators_url Urllib.urlparse Scenario.DOWNLOADS_DIR
           Scenario.MAX_FILE_SIZE Scenario.CalledProcessError_str
           Scenario.TimeoutExpired_str env Scenario.track "mp3" (PyStr "192") w
           (Scenario.command_line env Scenario.track "mp3" (PyStr "192")) "" ""
           [Scenario.other; mkFile Scenario.song true 200000000 1704110400%float]
           (mkFile Scenario.song true 200000000 1704110400%float)).
  - repeat split; vm_compute; reflexivity.
  - vm_compute; reflexivity.
  - reflexivity.
  - vm_compute; reflexivity.
Defined.

Lemma missing_output_is_reported_witness :
  let env := Scenario.env_with Scenario.tool_writes_nothing in
  let w := Scenario.world_of
             [Scenario.other;
              mkFile "20240101_120000_ab12cd34_Song.wav" true 10 1704110000%float;
              mkFile "20231231_235959_ffffffff_Song.mp3" true 10 1704110000%float] in
  fst (Scenario.pipeline env Scenario.track "mp3" (PyStr "192") w)
  = Raise (DownloadError "Unexpected error: File not found after download").
Proof.
  intros env w.
  apply (missing_output_is_reported
           Scenario.validators_url Urllib.urlparse Scenario.DOWNLOADS_DIR
           Scenario.MAX_FILE_SIZE Scenario.CalledProcessError_str
           Scenario.TimeoutExpired_str env Scenario.track "mp3" (PyStr "192") w
           (Scenario.command_line env Scenario.track "mp3" (PyStr "192")) "" "" (fs w)).
  - repeat split; vm_compute; reflexivity.
  - intros g [<- | [<- | [<- | []]]]; vm_compute; intros H;
      first [reflexivity | discriminate H].
Defined.

Lemma failed_tool_text_is_not_classified_witness :
  let env := Scenario.env_with (Scenario.tool_fails "ERROR: Private video") in
  fst (Scenario.pipeline env Scenario.track "mp3" (PyStr "192") Scenario.empty_world)
  = Raise (AttributeError "'str' object has no attribute 'decode'").
Proof.
  intros env.
  apply (failed_tool_text_is_not_classified
           Scenario.validators_url Urllib.urlparse Scenario.DOWNLOADS_DIR
           Scenario.MAX_FILE_SIZE Scenario.CalledProcessError_str
           Scenario.TimeoutExpired_str env Scenario.track "mp3" (PyStr "192")
           Scenario.empty_world
           (Scenario.command_line env Scenario.track "mp3" (PyStr "192"))
           1%Z "" "ERROR: Private video" []).
  - repeat split; vm_compute; reflexivity.
  - discriminate.
  - discriminate.
Defined.

(** The same run seen from the handler: the [AttributeError] is not a
    [DownloadError], so the client receives the generic 500 answer and
    never the text "Track is private or not available". *)
Example private_track_answer :
  fst (Scenario.route (Scenario.env_with (Scenario.tool_fails "ERROR: Private video"))
         (Scenario.post_json [("url", PyStr Scenario.track)]) Scenario.empty_world)
  = json_error "An unexpected error occurred" 500.
Proof. vm_compute. reflexivity. Qed.

(** With no captured error text the handler classifies the text of the
    exception itself. *)
Example silent_failure_answer :
  fst (Scenario.route (Scenario.env_with (Scenario.tool_fails ""))
         (Scenario.post_json [("url", PyStr Scenario.track)]) Scenario.empty_world)
  = json_error
      ("Download failed: "
       ++ Scenario.CalledProcessError_str 1
            (Scenario.command_line (Scenario.env_with (Scenario.tool_fails ""))
               Scenario.track "mp3" (PyStr "192")))
      400.
Proof. vm_compute. reflexivity. Qed.

(** A URL field that holds a no-break space only is empty once stripped:
    the handler asks for a URL and the pipeline is not entered, whatever
    the quality says. *)
Example no_break_space_url_answer :
  let req := Scenario.post_json
               [("url", PyStr Scenario.nbsp); ("format", PyStr "mp3");
                ("quality", PyStr "999")] in
  Scenario.route (Scenario.env_with (Scenario.tool_writes Scenario.song 50000)) req
    Scenario.empty_world
  = (json_error "Please provide a SoundCloud URL" 400, Scenario.empty_world).
Proof. vm_compute. reflexivity. Qed.

(** A no-break space in front of the URL is stripped before the pipeline
    is called. *)
Example no_break_space_is_stripped_from_url :
  let req := Scenario.post_json [("url", PyStr (Scenario.nbsp ++ Scenario.track))] in
  calls (snd (Scenario.route (Scenario.env_with (Scenario.tool_writes Scenario.song 50000))
                req Scenario.empty_world))
  = [(Scenario.track, "mp3", PyStr "192")].
Proof. vm_compute. reflexivity. Qed.

(** A tool that passed the dependency check and still cannot be started
    is reported like every other exception of the [try] body. *)
Example missing_tool_answer :
  fst (Scenario.route (Scenario.env_with Scenario.tool_missing)
         (Scenario.post_json [("url", PyStr Scenario.track)]) Scenario.empty_world)
  = json_error "Unexpected error: [Errno 2] No such file or directory: 'yt-dlp'" 400.
Proof. vm_compute. reflexivity. Qed.

(** An invalid URL is answered with status 400 also where the tool would
    fail on every command line: it is not started. *)
Example invalid_url_answer_with_failing_tool :
  Scenario.route (Scenario.env_with (Scenario.tool_fails "ERROR: boom"))
    (Scenario.post_json [("url", PyStr "https://evil.example.com/x")])
    Scenario.empty_world
  = (json_error "Unexpected error: URL must be from SoundCloud" 400,
     called "https://evil.example.com/x" "mp3" (PyStr "192") Scenario.empty_world).
Proof. vm_compute. reflexivity. Qed.

(** ** The [POST] handler *)

Section HandlerFacts.

Variable validators_url : string -> bool.
Variable urlparse : string -> ParseResult.
Variable DOWNLOADS_DIR : string.
Variable MAX_FILE_SIZE : Z.
Variable CalledProcessError_str : Z -> list string -> string.
Variable TimeoutExpired_str : list string -> string.
Variable env : Env.

Let pipeline := download_soundcloud_to_mp3 validators_url urlparse DOWNLOADS_DIR
                  MAX_FILE_SIZE CalledProcessError_str TimeoutExpired_str env.
Let body := download_body validators_url urlparse DOWNLOADS_DIR MAX_FILE_SIZE env.
Let handlers := download_handlers CalledProcessError_str TimeoutExpired_str.
Let route_post := download_route_post validators_url urlparse DOWNLOADS_DIR
                    MAX_FILE_SIZE CalledProcessError_str TimeoutExpired_str env.
Let route := download_route validators_url urlparse DOWNLOADS_DIR
               MAX_FILE_SIZE CalledProcessError_str TimeoutExpired_str env.
Let ran := tool_ran validators_url urlparse DOWNLOADS_DIR MAX_FILE_SIZE env.

(** The [try] body of the handler, in terms of the fields it read. *)
Lemma route_post_fields (req : Request) (w : World) (u f : string) (q : pyval) :
  request_fields req = Ok (u, f, q) ->
  route_post req w
  = if String.eqb u ""
    then (Ok (json_error "Please provide a SoundCloud URL" 400), w)
    else if negb (PyStr.mem f ["mp3"; "wav"; "aac"])
    then (Ok (json_error "Unsupported audio format" 400), w)
    else bind (pipeline u f (effective_quality f q)) (deliver DOWNLOADS_DIR env f) w.
Proof.
  intros H. unfold request_fields in H.
  unfold route_post, download_route_post.
  destruct (request_data req) as [data|]; [|discriminate].
  unfold bind at 1, lift at 1.
  destruct (Py.get data "url" (PyStr "")) as [vu|]; [|discriminate].
  unfold bind at 1, lift at 1.
  destruct (Py.strip vu) as [u'|]; [|discriminate].
  unfold bind at 1, lift at 1.
  destruct (Py.get data "format" (PyStr "mp3")) as [vf|]; [|discriminate].
  unfold bind at 1, lift at 1.
  destruct (Py.lower vf) as [f'|]; [|discriminate].
  unfold bind at 1, lift at 1.
  destruct (Py.get data "quality" (PyStr "192")) as [q'|]; [|discriminate].
  unfold bind at 1, lift at 1.
  injection H as -> -> ->.
  destruct (String.eqb u ""); [reflexivity|].
  destruct (negb (PyStr.mem f ["mp3"; "wav"; "aac"])); reflexivity.
Qed.

Lemma route_post_unreadable (req : Request) (w : World) (e : Exn) :
  request_fields req = Raise e ->
  route_post req w = (Raise e, w).
Proof.
  intros H. unfold request_fields in H.
  unfold route_post, download_route_post.
  destruct (request_data req) as [data|]; [|injection H as <-; reflexivity].
  unfold bind at 1, lift at 1.
  destruct (Py.get data "url" (PyStr "")) as [vu|]; [|injection H as <-; reflexivity].
  unfold bind at 1, lift at 1.
  destruct (Py.strip vu) as [u'|]; [|injection H as <-; reflexivity].
  unfold bind at 1, lift at 1.
  destruct (Py.get data "format" (PyStr "mp3")) as [vf|]; [|injection H as <-; reflexivity].
  unfold bind at 1, lift at 1.
  destruct (Py.lower vf) as [f'|]; [|injection H as <-; reflexivity].
  unfold bind at 1, lift at 1.
  destruct (Py.get data "quality" (PyStr "192")) as [q'|]; [|injection H as <-; reflexivity].
  discriminate.
Qed.

(** How [download_route] answers what its [try] body raises. *)
Lemma route_of_post (req : Request) (w : World) :
  method req = POST ->
  route req w
  = match route_post req w with
    | (Ok r, w') => (r, w')
    | (Raise (DownloadError m), w') => (json_error m 400, w')
    | (Raise _, w') => (json_error "An unexpected error occurred" 500, w')
    end.
Proof. intros H. unfold route, download_route. now rewrite H. Qed.

Ltac split_matches :=
  repeat match goal with
         | |- context [match ?x with _ => _ end] =>
             lazymatch x with
             | context [match _ with _ => _ end] => fail
             | _ => destruct x eqn:?
             end
         end.

Ltac open_body :=
  unfold body, download_body, bind, raise, ret, subprocess_run,
    Os.listdir, Os.getsize, Os.remove.

(** The body raises [CalledProcessError] only for a nonzero exit status
    of the subprocess of this call: the command built from its arguments,
    started after the URL passed validation and both tools were found;
    the exception carries the text of the error stream. *)
Lemma body_CalledProcessError_ran u f q w rc cmd c w' :
  body u f q w = (Raise (CalledProcessError rc cmd c), w') ->
  exists out err d,
    ran u f q w cmd (Exited rc out err) d /\ rc <> 0%Z /\ c = CapStr err.
Proof.
  unfold ran, tool_ran. open_body.
  destruct (validate_soundcloud_url validators_url urlparse u) as [ok msg].
  destruct ok; cbn [negb fst]; [|discriminate].
  destruct (check_dependencies env) as [|dep deps]; [|discriminate].
  destruct (argv (build_command DOWNLOADS_DIR MAX_FILE_SIZE env u f q)) as [cmd0|];
    [|discriminate].
  destruct (run env cmd0 (fs w)) as [[rc0 out err| |reason] d] eqn:Hrun;
    [|discriminate ..].
  destruct (rc0 =? 0)%Z eqn:Hrc.
  - cbn [fs]. split_matches; discriminate.
  - intros H. injection H as <- <- <- _. apply Z.eqb_neq in Hrc.
    exists out, err, d. repeat split; assumption.
Qed.

(** The body and the [except] clauses leave the history of calls, the
    timers and the session as they were. *)
Lemma body_frame u f q w :
  let w' := snd (body u f q w) in
  calls w' = calls w /\ timers w' = timers w
  /\ session_downloads w' = session_downloads w.
Proof.
  open_body. split_matches; cbn; auto.
Qed.

Lemma handlers_frame e w : snd (handlers e w) = w.
Proof.
  unfold handlers, download_handlers, bind, raise, lift.
  split_matches; reflexivity.
Qed.

Lemma pipeline_calls u f q w :
  calls (snd (pipeline u f q w)) = (calls w ++ [(u, f, q)])%list.
Proof.
  unfold pipeline. rewrite pipeline_unfold. unfold try_except.
  pose proof (body_frame u f q (called u f q w)) as Hb. cbv zeta in Hb.
  fold body.
  destruct (body u f q (called u f q w)) as [[r|e] w1]; cbn [snd] in *.
  - now destruct Hb as [-> _].
  - fold handlers. rewrite handlers_frame. now destruct Hb as [-> _].
Qed.

(** When the subprocess this call starts does not end with a nonzero
    status, whatever the pipeline raises is a [DownloadError]. *)
Lemma pipeline_raises_DownloadError u f q w e :
  (forall cmd rc out err d, ran u f q w cmd (Exited rc out err) d -> rc = 0%Z) ->
  fst (pipeline u f q w) = Raise e ->
  exists m, e = DownloadError m.
Proof.
  intros Htool. unfold pipeline. rewrite pipeline_unfold. unfold try_except.
  fold body.
  destruct (body u f q (called u f q w)) as [[r|e0] w1] eqn:Hb; cbn [fst].
  - discriminate.
  - fold handlers. intros H.
    destruct (handlers_wrap CalledProcessError_str TimeoutExpired_str e0 w1) as [m Hm].
    + intros rc cmd c ->.
      apply body_CalledProcessError_ran in Hb as (out & err & d & Hran & Hrc & _).
      apply Hrc. exact (Htool _ _ _ _ _ Hran).
    + fold handlers in Hm. rewrite Hm in H. injection H as <-. now exists m.
Qed.

Lemma deliver_calls f res w :
  calls (snd (deliver DOWNLOADS_DIR env f res w)) = calls w.
Proof.
  unfold deliver, session_append, timer_start, send_file, modify, Os.isfile,
    bind, ret, raise.
  cbn [fs]. split_matches; reflexivity.
Qed.

(** C2, as the handler is written: for a [POST] request that reaches the
    pipeline (its fields were read, the URL is not empty and the format
    is supported), every failure of the pipeline other than a nonzero
    exit of the tool (an invalid URL, a missing dependency, a timeout, a
    tool that cannot be started, an output file that is not found or is
    too large) is a [DownloadError], and the handler answers it with
    status 400 and the JSON body that carries its message.  The one
    exclusion is about the subprocess of this request: the command built
    from its own fields, started after its URL passed validation. *)
Theorem pipeline_failures_are_answered_400
        (req : Request) (w : World) (u f : string) (q : pyval) (e : Exn) :
  method req = POST ->
  request_fields req = Ok (u, f, q) ->
  u <> "" ->
  PyStr.mem f ["mp3"; "wav"; "aac"] = true ->
  (forall cmd rc out err d,
      ran u f (effective_quality f q) w cmd (Exited rc out err) d -> rc = 0%Z) ->
  fst (pipeline u f (effective_quality f q) w) = Raise e ->
  exists m, e = DownloadError m /\ fst (route req w) = json_error m 400.
Proof.
  intros Hpost Hreq Hu Hf Htool Hfail.
  destruct (pipeline_raises_DownloadError _ _ _ _ _ Htool Hfail) as [m ->].
  exists m. split; [reflexivity|].
  rewrite (route_of_post req w Hpost).
  rewrite (route_post_fields req w u f q Hreq).
  apply String.eqb_neq in Hu. rewrite Hu, Hf. cbn [negb].
  unfold bind.
  destruct (pipeline u f (effective_quality f q) w) as [[r|e] w1]; cbn [fst] in Hfail.
  - discriminate.
  - injection Hfail as ->. reflexivity.
Qed.

(** C5, as the handler is written: for a [POST] request whose fields
    were read (the [url] and [format] fields are strings or absent) and
    whose format, lower-cased, is none of [mp3], [wav] and [aac], the
    answer has status 400 and the world is unchanged: the pipeline is not
    entered, no subprocess is started and the directory is untouched. *)
Theorem unsupported_format_is_refused
        (req : Request) (w : World) (u f : string) (q : pyval) :
  method req = POST ->
  request_fields req = Ok (u, f, q) ->
  PyStr.mem f ["mp3"; "wav"; "aac"] = false ->
  route req w
  = (json_error (if String.eqb u "" then "Please provide a SoundCloud URL"
                 else "Unsupported audio format") 400, w).
Proof.
  intros Hpost Hreq Hf.
  rewrite (route_of_post req w Hpost).
  rewrite (route_post_fields req w u f q Hreq).
  rewrite Hf. cbn [negb]. destruct (String.eqb u ""); reflexivity.
Qed.

(** C6, as the handler is written: for a [POST] request with a URL that
    is not empty, the format [mp3] (lower-cased) and a quality that is
    none of the four strings, the pipeline is entered once, with the
    quality ["192"], and the answer and the final world are those of the
    same request made with the quality ["192"]. *)
Theorem invalid_quality_is_coerced
        (req : Request) (w : World) (u : string) (q : pyval) :
  method req = POST ->
  request_fields req = Ok (u, "mp3", q) ->
  u <> "" ->
  pyval_in_strs q ["128"; "192"; "256"; "320"] = false ->
  calls (snd (route req w)) = (calls w ++ [(u, "mp3", PyStr "192")])%list
  /\ forall req',
       method req' = POST ->
       request_fields req' = Ok (u, "mp3", PyStr "192") ->
       route req w = route req' w.
Proof.
  intros Hpost Hreq Hu Hq.
  assert (Hroute : forall r q0,
             method r = POST -> request_fields r = Ok (u, "mp3", q0) ->
             route r w
             = match bind (pipeline u "mp3" (effective_quality "mp3" q0))
                          (deliver DOWNLOADS_DIR env "mp3") w with
               | (Ok a, w') => (a, w')
               | (Raise (DownloadError m), w') => (json_error m 400, w')
               | (Raise _, w') => (json_error "An unexpected error occurred" 500, w')
               end).
  { intros r q0 Hp Hr. rewrite (route_of_post r w Hp).
    rewrite (route_post_fields r w u "mp3" q0 Hr).
    apply String.eqb_neq in Hu. rewrite Hu. reflexivity. }
  assert (Heff : effective_quality "mp3" q = PyStr "192").
  { unfold effective_quality. now rewrite Hq. }
  split.
  - rewrite (Hroute req q Hpost Hreq), Heff. unfold bind.
    pose proof (pipeline_calls u "mp3" (PyStr "192") w) as Hc.
    destruct (pipeline u "mp3" (PyStr "192") w) as [[res|e] w1]; cbn [snd] in Hc.
    + pose proof (deliver_calls "mp3" res w1) as Hd.
      destruct (deliver DOWNLOADS_DIR env "mp3" res w1) as [[a|e] w2];
        cbn [snd] in Hd; [|destruct e]; cbn [snd]; congruence.
    + destruct e; cbn [snd]; exact Hc.
  - intros req' Hpost' Hreq'.
    rewrite (Hroute req q Hpost Hreq), (Hroute req' (PyStr "192") Hpost' Hreq'), Heff.
    reflexivity.
Qed.

End HandlerFacts.

(** C2 as stated fails: a timeout of the tool is a pipeline failure outside
    the invalid-input class, and the handler answers it with status 400,
    not 500. *)
Lemma timeout_is_answered_400 :
  let env := Scenario.env_with Scenario.tool_timeout in
  let req := Scenario.post_json [("url", PyStr Scenario.track)] in
  fst (Scenario.pipeline env Scenario.track "mp3" (PyStr "192") Scenario.empty_world)
  = Raise (DownloadError "Download timeout - file may be too large or connection slow")
  /\ fst (Scenario.route env req Scenario.empty_world)
     = json_error "Download timeout - file may be too large or connection slow" 400
  /\ status_of (fst (Scenario.route env req Scenario.empty_world)) = 400%Z.
Proof. vm_compute. repeat split. Qed.

Lemma pipeline_failures_are_answered_400_witness :
  let env := Scenario.env_with Scenario.tool_writes_nothing in
  let req := Scenario.post_json [("url", PyStr Scenario.track); ("format", PyStr "wav")] in
  exists m,
    DownloadError "Unexpected error: File not found after download" = DownloadError m
    /\ fst (Scenario.route env req Scenario.empty_world) = json_error m 400.
Proof.
  intros env req.
  apply (pipeline_failures_are_answered_400
           Scenario.validators_url Urllib.urlparse Scenario.DOWNLOADS_DIR
           Scenario.MAX_FILE_SIZE Scenario.CalledProcessError_str
           Scenario.TimeoutExpired_str env req Scenario.empty_world
           Scenario.track "wav" (PyStr "192")).
  - reflexivity.
  - reflexivity.
  - discriminate.
  - reflexivity.
  - intros cmd rc out err d (_ & _ & _ & H). vm_compute in H. now injection H as <- _ _ _.
  - vm_compute. reflexivity.
Defined.

(** C5 as stated fails: the handler lower-cases the format before it
    compares, so the field ["MP3"], which is none of the three strings, is
    served; and a [format] that is not a string (the JSON number 5) ends in
    the generic 500 answer. *)
Lemma uppercase_format_is_served :
  let env := Scenario.env_with (Scenario.tool_writes Scenario.song 50000) in
  let req := Scenario.post_json [("url", PyStr Scenario.track); ("format", PyStr "MP3")] in
  let req5 := Scenario.post_json [("url", PyStr Scenario.track); ("format", PyInt 5)] in
  format_field req = Some (PyStr "MP3")
  /\ pyval_in_strs (PyStr "MP3") ["mp3"; "wav"; "aac"] = false
  /\ fst (Scenario.route env req Scenario.empty_world)
     = SendFile "./downloads/20240101_120000_ab12cd34_Song.mp3" Scenario.song "audio/mp3"
  /\ calls (snd (Scenario.route env req Scenario.empty_world))
     = [(Scenario.track, "mp3", PyStr "192")]
  /\ format_field req5 = Some (PyInt 5)
  /\ fst (Scenario.route env req5 Scenario.empty_world)
     = json_error "An unexpected error occurred" 500.
Proof. vm_compute. repeat split. Qed.

Lemma unsupported_format_is_refused_witness :
  let env := Scenario.env_with (Scenario.tool_writes Scenario.song 50000) in
  let req := Scenario.post_json [("url", PyStr Scenario.track); ("format", PyStr "FLAC")] in
  Scenario.route env req (Scenario.world_of [Scenario.other])
  = (json_error "Unsupported audio format" 400, Scenario.world_of [Scenario.other]).
Proof.
  intros env req.
  apply (unsupported_format_is_refused
           Scenario.validators_url Urllib.urlparse Scenario.DOWNLOADS_DIR
           Scenario.MAX_FILE_SIZE Scenario.CalledProcessError_str
           Scenario.TimeoutExpired_str env req (Scenario.world_of [Scenario.other])
           Scenario.track "flac" (PyStr "192")).
  - reflexivity.
  - reflexivity.
  - reflexivity.
Defined.

(** C6 as stated fails: with an empty URL the handler answers 400 before
    it looks at the quality, and the pipeline is not entered. *)
Lemma quality_is_not_reached_without_url :
  let env := Scenario.env_with (Scenario.tool_writes Scenario.song 50000) in
  let req := Scenario.post_json
               [("url", PyStr "  "); ("format", PyStr "mp3"); ("quality", PyStr "999")] in
  pyval_in_strs (PyStr "999") ["128"; "192"; "256"; "320"] = false
  /\ Scenario.route env req Scenario.empty_world
     = (json_error "Please provide a SoundCloud URL" 400, Scenario.empty_world)
  /\ calls (snd (Scenario.route env req Scenario.empty_world)) = [].
Proof. vm_compute. repeat split. Qed.

Lemma invalid_quality_is_coerced_witness :
  let env := Scenario.env_with (Scenario.tool_writes Scenario.song 50000) in
  let req := Scenario.post_json
               [("url", PyStr Scenario.track); ("format", PyStr "Mp3");
                ("quality", PyStr "999")] in
  calls (snd (Scenario.route env req Scenario.empty_world))
  = [(Scenario.track, "mp3", PyStr "192")]
  /\ forall req',
       method req' = POST ->
       request_fields req' = Ok (Scenario.track, "mp3", PyStr "192") ->
       Scenario.route env req Scenario.empty_world
       = Scenario.route env req' Scenario.empty_world.
Proof.
  intros env req.
  apply (invalid_quality_is_coerced
           Scenario.validators_url Urllib.urlparse Scenario.DOWNLOADS_DIR
           Scenario.MAX_FILE_SIZE Scenario.CalledProcessError_str
           Scenario.TimeoutExpired_str env req Scenario.empty_world
           Scenario.track (PyStr "999")).
  - reflexivity.
  - reflexivity.
  - discriminate.
  - reflexivity.
Defined.

(** ** The sweep *)

Lemma set_fs_set_fs (d d' : list File) (w : World) :
  set_fs d (set_fs d' w) = set_fs d w.
Proof. reflexivity. Qed.

Lemma filter_all {A} (p : A -> bool) (l : list A) :
  (forall x, In x l -> p x = true) -> filter p l = l.
Proof.
  induction l as [|a l IH]; simpl; intros H; [reflexivity|].
  rewrite (H a (or_introl eq_refl)). f_equal. apply IH. intros x Hx. apply H. now right.
Qed.

(** In a directory whose names are distinct, a name denotes its entry. *)
Lemma lookup_middle (pre l : list File) (a : File) :
  NoDup (map fname (pre ++ a :: l)) ->
  Os.lookup (fname a) (pre ++ a :: l) = Some a.
Proof.
  unfold Os.lookup.
  induction pre as [|b pre IH]; simpl; intros H.
  - now rewrite String.eqb_refl.
  - inversion H as [|x xs Hnotin Hrest]; subst.
    destruct (String.eqb (fname b) (fname a)) eqn:E; [|now apply IH].
    exfalso. apply Hnotin. apply String.eqb_eq in E. rewrite E.
    rewrite map_app. apply in_or_app. right. now left.
Qed.

(** Removing an entry of such a directory leaves the others as they are. *)
Lemma without_middle (pre l : list File) (a : File) :
  NoDup (map fname (pre ++ a :: l)) ->
  without (fname a) (pre ++ a :: l) = (pre ++ l)%list.
Proof.
  intros H. rewrite map_app in H. simpl in H.
  apply NoDup_remove_2 in H. rewrite <- map_app in H.
  unfold without. rewrite filter_app. simpl.
  rewrite String.eqb_refl. simpl. rewrite <- filter_app.
  apply filter_all. intros g Hg.
  destruct (String.eqb (fname g) (fname a)) eqn:E; [|reflexivity].
  exfalso. apply H. apply String.eqb_eq in E. rewrite <- E. now apply in_map.
Qed.

(** The invariant of the loop: the entries already visited ([pre]) are the
    fresh ones, in order; the entries still to visit ([l]) are untouched. *)
Lemma cleanup_loop_spec (now : float) (l : list File) :
  forall (pre : list File) (c : Z) (w : World),
    fs w = (pre ++ l)%list ->
    NoDup (map fname (pre ++ l)) ->
    cleanup_loop now (map fname l) c w
    = (Ok (c + Z.of_nat (length (filter (stale now) l)))%Z,
       set_fs (pre ++ filter (fresh now) l) w).
Proof.
  induction l as [|a l IH]; intros pre c w Hfs Hnd.
  - simpl. rewrite Z.add_0_r, <- Hfs. destruct w; reflexivity.
  - cbn [map cleanup_loop]. unfold bind at 1, Os.isfile.
    rewrite Hfs, (lookup_middle pre l a Hnd).
    assert (Hnd' : NoDup (map fname (pre ++ l))).
    { rewrite map_app in *. simpl in Hnd. now apply NoDup_remove_1 in Hnd. }
    cbn [filter]. unfold fresh at 1.
    destruct (is_file a) eqn:Hfile.
    + unfold bind at 1, Os.getmtime. rewrite Hfs, (lookup_middle pre l a Hnd).
      destruct (PrimFloat.ltb 3600 (PrimFloat.sub now (mtime a))) eqn:Hold.
      * assert (Hstale : stale now a = true) by (unfold stale; now rewrite Hfile, Hold).
        rewrite Hstale. cbn [negb length].
        unfold bind at 1, Os.remove. rewrite Hfs, (lookup_middle pre l a Hnd), Hfile.
        fold (without (fname a) (pre ++ a :: l)).
        rewrite (without_middle pre l a Hnd).
        rewrite (IH pre (c + 1)%Z (set_fs (pre ++ l) w) eq_refl Hnd').
        rewrite set_fs_set_fs, Nat2Z.inj_succ.
        replace (c + 1 + Z.of_nat (length (filter (stale now) l)))%Z
          with (c + Z.succ (Z.of_nat (length (filter (stale now) l))))%Z by lia.
        reflexivity.
      * assert (Hstale : stale now a = false) by (unfold stale; now rewrite Hfile, Hold).
        rewrite Hstale. cbn [negb].
        rewrite (IH (pre ++ [a])%list c w).
        -- now rewrite <- app_assoc.
        -- now rewrite <- app_assoc.
        -- now rewrite <- app_assoc.
    + assert (Hstale : stale now a = false) by (unfold stale; now rewrite Hfile).
      rewrite Hstale. cbn [negb].
      rewrite (IH (pre ++ [a])%list c w).
      * now rewrite <- app_assoc.
      * now rewrite <- app_assoc.
      * now rewrite <- app_assoc.
Qed.

(** C8: over any output directory (a directory has distinct names), the
    sweep removes exactly the regular files whose last-modified time lies
    more than 3600 seconds before [time.time()]: the directory it leaves is
    the one it found without those files, every other entry being kept as
    it was and in place, and the count it reports is the number of files
    removed. *)
Theorem sweep_removes_exactly_the_stale_files (env : Env) (w : World) :
  NoDup (map fname (fs w)) ->
  let now := time_time env in
  cleanup_old_files env w
  = (Jsonify [("success", PyBool true);
              ("cleaned_files", PyInt (Z.of_nat (length (filter (stale now) (fs w)))))]
             200,
     set_fs (filter (fresh now) (fs w)) w).
Proof.
  intros Hnd now. unfold cleanup_old_files, bind, Os.listdir.
  fold now.
  rewrite (cleanup_loop_spec now (fs w) [] 0%Z w eq_refl Hnd).
  reflexivity.
Qed.

(** The scenario of the specification: one file modified two hours ago and
    one modified five minutes ago. *)
Lemma sweep_removes_exactly_the_stale_files_witness :
  let env := Scenario.env_with Scenario.tool_timeout in
  let old := mkFile "old.mp3" true 4000 1704103200%float in
  let young := mkFile "young.mp3" true 4000 1704110100%float in
  cleanup_old_files env (Scenario.world_of [old; young])
  = (Jsonify [("success", PyBool true); ("cleaned_files", PyInt 1)] 200,
     Scenario.world_of [young]).
Proof.
  intros env old young.
  apply (sweep_removes_exactly_the_stale_files env (Scenario.world_of [old; young])).
  simpl. repeat constructor; simpl; intuition discriminate.
Defined.

(** ** The deferred deletion *)

Section DeferredDeletion.

Variable validators_url : string -> bool.
Variable urlparse : string -> ParseResult.
Variable DOWNLOADS_DIR : string.
Variable MAX_FILE_SIZE : Z.
Variable CalledProcessError_str : Z -> list string -> string.
Variable TimeoutExpired_str : list string -> string.
Variable env : Env.

Let pipeline := download_soundcloud_to_mp3 validators_url urlparse DOWNLOADS_DIR
                  MAX_FILE_SIZE CalledProcessError_str TimeoutExpired_str env.
Let body := download_body validators_url urlparse DOWNLOADS_DIR MAX_FILE_SIZE env.
Let handlers := download_handlers CalledProcessError_str TimeoutExpired_str.
Let route := download_route validators_url urlparse DOWNLOADS_DIR
               MAX_FILE_SIZE CalledProcessError_str TimeoutExpired_str env.

Lemma pipeline_timers u f q w :
  timers (snd (pipeline u f q w)) = timers w.
Proof.
  unfold pipeline. rewrite pipeline_unfold. unfold try_except.
  pose proof (body_frame validators_url urlparse DOWNLOADS_DIR MAX_FILE_SIZE env
                u f q (called u f q w)) as Hb.
  cbv zeta in Hb. fold body in Hb |- *.
  destruct (body u f q (called u f q w)) as [[r|e] w1]; cbn [snd] in *.
  - now destruct Hb as (_ & -> & _).
  - fold handlers. unfold handlers. rewrite handlers_frame. now destruct Hb as (_ & -> & _).
Qed.

(** What the pipeline returns reports success. *)
Lemma pipeline_returns_success u f q w res :
  fst (pipeline u f q w) = Ok res -> success res = true.
Proof.
  unfold pipeline. rewrite pipeline_unfold. unfold try_except. fold body.
  destruct (body u f q (called u f q w)) as [[r|e] w1] eqn:Hb; cbn [fst].
  - intros H. injection H as <-. revert Hb.
    unfold body, download_body, bind, raise, ret, subprocess_run,
      Os.listdir, Os.getsize, Os.remove.
    repeat match goal with
           | |- context [match ?x with _ => _ end] =>
               lazymatch x with
               | context [match _ with _ => _ end] => fail
               | _ => destruct x eqn:?
               end
           end; intros H; try discriminate H.
    now injection H as <- _.
  - fold handlers. pose proof (handlers_frame CalledProcessError_str TimeoutExpired_str e w1).
    unfold handlers, download_handlers, bind, raise, lift.
    repeat match goal with
           | |- context [match ?x with _ => _ end] =>
               lazymatch x with
               | context [match _ with _ => _ end] => fail
               | _ => destruct x eqn:?
               end
           end; discriminate.
Qed.

Lemma deliver_timers f res w :
  success res = true ->
  timers (snd (deliver DOWNLOADS_DIR env f res w))
  = (timers w ++ [(60%float, Os.path_join DOWNLOADS_DIR (filename res))])%list.
Proof.
  intros Hs.
  unfold deliver, session_append, timer_start, send_file, modify, Os.isfile,
    bind, ret, raise.
  rewrite Hs. cbn [negb fs].
  destruct (Os.lookup (filename res) (fs w)) as [g|]; [destruct (is_file g)|];
    reflexivity.
Qed.

(** For a [POST] request that reaches the pipeline and for which the
    pipeline returns a file, the handler starts one timer, with the delay
    60.0 and the path of that file, whether [send_file] then succeeds or
    not. *)
Theorem one_timer_per_download
        (req : Request) (w : World) (u f : string) (q : pyval) (res : DownloadResult) :
  method req = POST ->
  request_fields req = Ok (u, f, q) ->
  u <> "" ->
  PyStr.mem f ["mp3"; "wav"; "aac"] = true ->
  fst (pipeline u f (effective_quality f q) w) = Ok res ->
  timers (snd (route req w))
  = (timers w ++ [(60%float, Os.path_join DOWNLOADS_DIR (filename res))])%list.
Proof.
  intros Hpost Hreq Hu Hf Hok.
  unfold route.
  rewrite (route_of_post validators_url urlparse DOWNLOADS_DIR MAX_FILE_SIZE
             CalledProcessError_str TimeoutExpired_str env req w Hpost).
  rewrite (route_post_fields validators_url urlparse DOWNLOADS_DIR MAX_FILE_SIZE
             CalledProcessError_str TimeoutExpired_str env req w u f q Hreq).
  apply String.eqb_neq in Hu. rewrite Hu, Hf. cbn [negb]. unfold bind.
  pose proof (pipeline_timers u f (effective_quality f q) w) as Ht.
  pose proof (pipeline_returns_success u f (effective_quality f q) w res Hok) as Hs.
  fold pipeline.
  destruct (pipeline u f (effective_quality f q) w) as [[r|e] w1];
    cbn [fst snd] in *; [|discriminate].
  injection Hok as ->.
  pose proof (deliver_timers f res w1 Hs) as Hd.
  destruct (deliver DOWNLOADS_DIR env f res w1) as [[a|e] w2]; cbn [snd] in Hd;
    [|destruct e]; cbn [snd]; congruence.
Qed.

End DeferredDeletion.

Lemma one_timer_per_download_witness :
  let env := Scenario.env_with (Scenario.tool_writes Scenario.song 50000) in
  let req := Scenario.post_json [("url", PyStr Scenario.track)] in
  timers (snd (Scenario.route env req Scenario.empty_world))
  = [(60%float, "./downloads/20240101_120000_ab12cd34_Song.mp3")].
Proof.
  intros env req.
  apply (one_timer_per_download
           Scenario.validators_url Urllib.urlparse Scenario.DOWNLOADS_DIR
           Scenario.MAX_FILE_SIZE Scenario.CalledProcessError_str
           Scenario.TimeoutExpired_str env req Scenario.empty_world
           Scenario.track "mp3" (PyStr "192")
           (mkDownloadResult true Scenario.song 50000 "Download completed successfully")).
  - reflexivity.
  - reflexivity.
  - discriminate.
  - reflexivity.
  - vm_compute. reflexivity.
Defined.


(** ** Further outcomes of the pipeline *)

Section PipelineFurther.

Variable validators_url : string -> bool.
Variable urlparse : string -> ParseResult.
Variable DOWNLOADS_DIR : string.
Variable MAX_FILE_SIZE : Z.
Variable CalledProcessError_str : Z -> list string -> string.
Variable TimeoutExpired_str : list string -> string.
Variable env : Env.

Let pipeline := download_soundcloud_to_mp3 validators_url urlparse DOWNLOADS_DIR
                  MAX_FILE_SIZE CalledProcessError_str TimeoutExpired_str env.
Let ran := tool_ran validators_url urlparse DOWNLOADS_DIR MAX_FILE_SIZE env.

(** When the tool has exited with status 0 and the file the pipeline picks
    is a file of at most [MAX_FILE_SIZE] bytes, the pipeline returns its
    name and size and leaves the directory as the tool left it. *)
Theorem produced_file_is_returned
        (u f : string) (q : pyval) (w : World) (cmd : list string)
        (out err : string) (d : list File) (file : File) :
  ran u f q w cmd (Exited 0 out err) d ->
  find (fun g => is_download env f (fname g)) d = Some file ->
  (fsize file <= MAX_FILE_SIZE)%Z ->
  pipeline u f q w
  = (Ok (mkDownloadResult true (fname file) (fsize file) "Download completed successfully"),
     started cmd d (called u f q w)).
Proof.
  intros Hran Hfind Hsize.
  destruct (first_download _ _ _ Hfind) as (others & Hf & Hl).
  unfold pipeline. rewrite pipeline_unfold. unfold try_except.
  rewrite (body_found validators_url urlparse DOWNLOADS_DIR MAX_FILE_SIZE env
             u f q (called u f q w) cmd out err d (fname file) others file
             Hran Hf Hl).
  assert (Hle : (fsize file >? MAX_FILE_SIZE)%Z = false).
  { rewrite Z.gtb_ltb. apply Z.ltb_ge. exact Hsize. }
  now rewrite Hle.
Qed.

(** When the tool runs into the timeout the pipeline raises the timeout
    [DownloadError], whatever the tool left in the directory. *)
Theorem timeout_is_reported
        (u f : string) (q : pyval) (w : World) (cmd : list string) (d : list File) :
  ran u f q w cmd TimedOut d ->
  pipeline u f q w
  = (Raise (DownloadError "Download timeout - file may be too large or connection slow"),
     started cmd d (called u f q w)).
Proof.
  intros Hran.
  unfold pipeline. rewrite pipeline_unfold. unfold try_except.
  rewrite (body_timeout validators_url urlparse DOWNLOADS_DIR MAX_FILE_SIZE env
             u f q (called u f q w) cmd d Hran).
  reflexivity.
Qed.

(** When the URL is valid and a tool is missing, the pipeline raises a
    [DownloadError] that names the missing tools, and no subprocess is
    started. *)
Theorem missing_dependency_is_reported
        (u f : string) (q : pyval) (w : World) :
  fst (validate_soundcloud_url validators_url urlparse u) = true ->
  check_dependencies env <> [] ->
  pipeline u f q w
  = (Raise (DownloadError ("Unexpected error: Missing dependencies: "
                           ++ PyStr.join ", " (check_dependencies env))),
     called u f q w).
Proof.
  intros Hv Hdeps.
  unfold pipeline. rewrite pipeline_unfold. unfold try_except, download_body.
  destruct (validate_soundcloud_url validators_url urlparse u) as [v m].
  simpl in Hv. subst v. cbn [negb].
  destruct (check_dependencies env) as [|dep deps]; [contradiction|].
  reflexivity.
Qed.

End PipelineFurther.

(** The scenario of the specification, with the prefix the model
    generates. *)
Lemma produced_file_is_returned_witness :
  let env := Scenario.env_with (Scenario.tool_writes Scenario.song 50000) in
  fst (Scenario.pipeline env Scenario.track "mp3" (PyStr "320") Scenario.empty_world)
  = Ok (mkDownloadResult true Scenario.song 50000 "Download completed successfully").
Proof.
  intros env.
  apply (f_equal fst
           (produced_file_is_returned
              Scenario.validators_url Urllib.urlparse Scenario.DOWNLOADS_DIR
              Scenario.MAX_FILE_SIZE Scenario.CalledProcessError_str
              Scenario.TimeoutExpired_str env Scenario.track "mp3" (PyStr "320")
              Scenario.empty_world
              (Scenario.command_line env Scenario.track "mp3" (PyStr "320")) "" ""
              [mkFile Scenario.song true 50000 1704110400%float]
              (mkFile Scenario.song true 50000 1704110400%float)
              (conj eq_refl (conj eq_refl (conj eq_refl eq_refl)))
              eq_refl
              (fun H => match H in _ = c return match c with Gt => False | _ => True end
                        with eq_refl => I end))).
Defined.

Lemma timeout_is_reported_witness :
  let env := Scenario.env_with Scenario.tool_timeout in
  fst (Scenario.pipeline env Scenario.track "wav" (PyStr "192") Scenario.empty_world)
  = Raise (DownloadError "Download timeout - file may be too large or connection slow").
Proof.
  intros env.
  apply (f_equal fst
           (timeout_is_reported
              Scenario.validators_url Urllib.urlparse Scenario.DOWNLOADS_DIR
              Scenario.MAX_FILE_SIZE Scenario.CalledProcessError_str
              Scenario.TimeoutExpired_str env Scenario.track "wav" (PyStr "192")
              Scenario.empty_world
              (Scenario.command_line env Scenario.track "wav" (PyStr "192")) []
              (conj eq_refl (conj eq_refl (conj eq_refl eq_refl))))).
Defined.

Lemma missing_dependency_is_reported_witness :
  let env := mkEnv (fun name => String.eqb name "yt-dlp") "ab12cd34" "20240101_120000"
                   1704110400%float Scenario.tool_timeout in
  Scenario.pipeline env Scenario.track "mp3" (PyStr "192") Scenario.empty_world
  = (Raise (DownloadError "Unexpected error: Missing dependencies: ffmpeg"),
     called Scenario.track "mp3" (PyStr "192") Scenario.empty_world).
Proof.
  intros env.
  apply (missing_dependency_is_reported
           Scenario.validators_url Urllib.urlparse Scenario.DOWNLOADS_DIR
           Scenario.MAX_FILE_SIZE Scenario.CalledProcessError_str
           Scenario.TimeoutExpired_str env Scenario.track "mp3" (PyStr "192")
           Scenario.empty_world).
  - reflexivity.
  - discriminate.
Defined.

(** ** The health probe *)

(** The probe answers 503 exactly when [yt-dlp] or [ffmpeg] is missing,
    and 200 otherwise. *)
Theorem health_check_status (env : Env) (isoformat_now : string) :
  status_of (health_check env isoformat_now)
  = if which env "yt-dlp" && which env "ffmpeg" then 200%Z else 503%Z.
Proof.
  unfold health_check, check_dependencies.
  destruct (which env "yt-dlp"), (which env "ffmpeg"); reflexivity.
Qed.

(** ** More on the URL validator *)

(** A URL the validator accepts passed [validators.url], and its network
    location is nothing but an allow-listed host: no user information, no
    port, and a host name on the list. *)
Theorem valid_url_has_bare_allowed_host
        (validators_url : string -> bool) (urlparse : string -> ParseResult)
        (url : string) :
  fst (validate_soundcloud_url validators_url urlparse url) = true ->
  validators_url url = true
  /\ In (Urllib.hostname (netloc (urlparse url))) ALLOWED_DOMAINS
  /\ Urllib.has "@" (netloc (urlparse url)) = false
  /\ Urllib.has ":" (netloc (urlparse url)) = false.
Proof.
  unfold validate_soundcloud_url.
  destruct (validators_url url); cbn [negb]; [|discriminate].
  cbv zeta.
  destruct (PyStr.mem (PyStr.lower (netloc (urlparse url))) ALLOWED_DOMAINS) eqn:E;
    cbn [negb fst]; [|discriminate].
  intros _. split; [reflexivity|].
  destruct (allowed_netloc_is_bare _ E) as [Hcolon Hat].
  rewrite (hostname_of_allowed_netloc _ E).
  repeat split; try assumption.
  now apply mem_true_iff.
Qed.

Lemma valid_url_has_bare_allowed_host_witness :
  let url := "HTTPS://On.SoundCloud.COM/abc?x=1:2@3" in
  Scenario.validators_url url = true
  /\ In (Urllib.hostname (netloc (Urllib.urlparse url))) ALLOWED_DOMAINS
  /\ Urllib.has "@" (netloc (Urllib.urlparse url)) = false
  /\ Urllib.has ":" (netloc (Urllib.urlparse url)) = false.
Proof.
  intros url.
  apply (valid_url_has_bare_allowed_host Scenario.validators_url Urllib.urlparse url).
  reflexivity.
Defined.

(** ** The generated prefix and the scan of the directory *)






(** Two strings of one length of which one starts with the other are
    equal. *)
Lemma prefix_same_length (p1 p2 r : string) :
  String.length p1 = String.length p2 ->
  String.prefix p2 (p1 ++ r) = true ->
  p1 = p2.
Proof.
  revert p2. induction p1 as [|a p1 IH]; intros [|b p2] Hlen Hp; simpl in *;
    try discriminate; [reflexivity|].
  destruct (ascii_dec b a) as [->|]; [|discriminate].
  f_equal. apply IH; [now injection Hlen | assumption].
Qed.


(** Requests do not pick up each other's files: a name that starts with
    the prefix of one request never passes the test of a request whose
    prefix has the same length and differs. *)
Theorem foreign_prefix_is_not_found
        (env other : Env) (audio_format rest : string) :
  String.length (file_prefix other) = String.length (file_prefix env) ->
  file_prefix other <> file_prefix env ->
  is_download env audio_format (file_prefix other ++ rest) = false.
Proof.
  intros Hlen Hdiff. unfold is_download, PyStr.startswith.
  destruct (String.prefix (file_prefix env) (file_prefix other ++ rest)) eqn:E;
    [|reflexivity].
  elim Hdiff. exact (prefix_same_length _ _ _ Hlen E).
Qed.

Lemma foreign_prefix_is_not_found_witness :
  let env := Scenario.env_with Scenario.tool_timeout in
  let other := mkEnv (fun _ => true) "ffffffff-5e6f-4a7b-8c9d-0123456789ab"
                     "20240101_120000" 1704110400%float Scenario.tool_timeout in
  is_download env "mp3" (file_prefix other ++ "_Song.mp3") = false.
Proof.
  intros env other.
  apply (foreign_prefix_is_not_found env other "mp3" "_Song.mp3").
  - reflexivity.
  - discriminate.
Defined.

(** ** What the pipeline does and does not do *)

Section PipelineEffects.

Variable validators_url : string -> bool.
Variable urlparse : string -> ParseResult.
Variable DOWNLOADS_DIR : string.
Variable MAX_FILE_SIZE : Z.
Variable CalledProcessError_str : Z -> list string -> string.
Variable TimeoutExpired_str : list string -> string.
Variable env : Env.

Let validate := validate_soundcloud_url validators_url urlparse.
Let body := download_body validators_url urlparse DOWNLOADS_DIR MAX_FILE_SIZE env.
Let handlers := download_handlers CalledProcessError_str TimeoutExpired_str.
Let pipeline := download_soundcloud_to_mp3 validators_url urlparse DOWNLOADS_DIR
                  MAX_FILE_SIZE CalledProcessError_str TimeoutExpired_str env.
Let ran := tool_ran validators_url urlparse DOWNLOADS_DIR MAX_FILE_SIZE env.

(** The body either stops before the subprocess, leaving the world as it
    is, or calls [subprocess.run] once, under the conditions of
    [tool_ran]; in the second case it returns only after exit status 0. *)
Lemma body_cases u f q w :
  body u f q w = (Raise (DownloadError (snd (validate u))), w)
  \/ (exists m, body u f q w = (Raise (DownloadError m), w))
  \/ (exists m, body u f q w = (Raise (TypeError m), w))
  \/ exists cmd outcome d,
       ran u f q w cmd outcome d
       /\ launched (snd (body u f q w)) = (launched w ++ [cmd])%list
       /\ forall res, fst (body u f q w) = Ok res ->
            exists out err name others file,
              outcome = Exited 0 out err
              /\ filter (is_download env f) (map fname d) = name :: others
              /\ Os.lookup name d = Some file
              /\ res = mkDownloadResult true name (fsize file)
                         "Download completed successfully"
              /\ (fsize file <= MAX_FILE_SIZE)%Z
              /\ snd (body u f q w) = started cmd d w.
Proof.
  remember (body u f q w) as b eqn:Hb. revert Hb.
  unfold body, download_body, ran, tool_ran. fold validate.
  destruct (validate u) as [v m] eqn:Hv. destruct v; cbn [negb fst snd].
  2: { intros ->. left. reflexivity. }
  destruct (check_dependencies env) as [|dep deps] eqn:Hdeps.
  2: { intros ->. right. left. eexists. reflexivity. }
  unfold bind at 1. unfold subprocess_run.
  destruct (argv (build_command DOWNLOADS_DIR MAX_FILE_SIZE env u f q)) as [cmd|] eqn:Hargv.
  2: { intros ->. right. right. left. eexists. reflexivity. }
  destruct (run env cmd (fs w)) as [outcome d] eqn:Hrun.
  intros Hb. right. right. right. exists cmd, outcome, d.
  split.
  { repeat split; try reflexivity; assumption. }
  revert Hb.
  destruct outcome as [rc out err| |reason];
    [| intros ->; split; [reflexivity | intros res H; discriminate H] ..].
  destruct (rc =? 0)%Z eqn:Hrc;
    [|intros ->; split; [reflexivity | intros res H; discriminate H]].
  apply Z.eqb_eq in Hrc. subst rc.
  unfold bind, Os.listdir. cbn [fs].
  destruct (filter (is_download env f) (map fname d)) as [|name others] eqn:Hfilter;
    [intros ->; split; [reflexivity | intros res H; discriminate H]|].
  unfold Os.getsize. cbn [fs].
  destruct (Os.lookup name d) as [file|] eqn:Hfile;
    [|intros ->; split; [reflexivity | intros res H; discriminate H]].
  destruct (fsize file >? MAX_FILE_SIZE)%Z eqn:Hsize.
  - unfold Os.remove. cbn [fs]. rewrite Hfile.
    destruct (is_file file);
      (intros ->; split; [reflexivity | intros res H; discriminate H]).
  - intros ->. split; [reflexivity|]. intros res H. cbn [fst] in H. injection H as <-.
    exists out, err, name, others, file. repeat split; [assumption|].
    rewrite Z.gtb_ltb in Hsize. now apply Z.ltb_ge in Hsize.
Qed.

Lemma handlers_raise e w : exists e', handlers e w = (Raise e', w).
Proof.
  unfold handlers, download_handlers, bind, raise, lift.
  destruct e; try (eexists; reflexivity).
  destruct (nonempty stderr).
  - destruct stderr; cbn; [eexists; reflexivity|].
    repeat match goal with
           | |- context [if ?b then _ else _] => destruct b
           end; eexists; reflexivity.
  - cbn.
    repeat match goal with
           | |- context [if ?b then _ else _] => destruct b
           end; eexists; reflexivity.
Qed.

(** What is true whenever the pipeline returns: the result reports
    success, names an entry of the output directory that carries the
    generated prefix and the requested extension, reports that entry's
    size, which is within [MAX_FILE_SIZE]; the URL was valid, both tools
    were installed and one subprocess was started. *)
Theorem returned_file_is_in_the_directory
        (u f : string) (q : pyval) (w : World) (res : DownloadResult) :
  fst (pipeline u f q w) = Ok res ->
  let w' := snd (pipeline u f q w) in
  success res = true
  /\ (file_size res <= MAX_FILE_SIZE)%Z
  /\ PyStr.startswith (filename res) (file_prefix env) = true
  /\ PyStr.endswith (filename res) ("." ++ PyStr.lower f) = true
  /\ (exists file, Os.lookup (filename res) (fs w') = Some file
                   /\ fsize file = file_size res)
  /\ (exists cmd, launched w' = launched w ++ [cmd])%list
  /\ fst (validate u) = true
  /\ check_dependencies env = [].
Proof.
  unfold pipeline. rewrite pipeline_unfold. unfold try_except. fold body handlers.
  destruct (body u f q (called u f q w)) as [[r|e] w1] eqn:Hb.
  2: { destruct (handlers_raise e w1) as [e' ->]. discriminate. }
  cbn [fst snd]. intros H. injection H as ->.
  destruct (body_cases u f q (called u f q w))
    as [Hc | [[m Hc] | [[m Hc] | (cmd & outcome & d & Hran & Hl & Hres)]]];
    try (rewrite Hb in Hc; discriminate Hc).
  rewrite Hb in Hl, Hres. cbn [fst snd] in Hl, Hres.
  destruct (Hres res eq_refl)
    as (out & err & name & others & file & -> & Hfilter & Hfile & -> & Hsize & ->).
  destruct Hran as (Hv & Hdeps & _ & _).
  assert (Hin : In name (filter (is_download env f) (map fname d)))
    by (rewrite Hfilter; now left).
  apply filter_In in Hin as [_ Hdl]. unfold is_download in Hdl.
  apply andb_true_iff in Hdl as [Hstart Hend].
  cbn [success file_size filename fs started launched called].
  repeat split; try assumption.
  - now exists file.
  - now exists cmd.
Qed.

Lemma pipeline_world (u f : string) (q : pyval) (w : World) :
  let w' := snd (pipeline u f q w) in
  timers w' = timers w
  /\ session_downloads w' = session_downloads w
  /\ ((launched w' = launched w /\ fs w' = fs w)
      \/ exists cmd outcome d,
           ran u f q w cmd outcome d
           /\ launched w' = (launched w ++ [cmd])%list).
Proof.
  cbv zeta.
  pose proof (body_frame validators_url urlparse DOWNLOADS_DIR MAX_FILE_SIZE env
                u f q (called u f q w)) as Hframe.
  cbv zeta in Hframe. fold body in Hframe.
  unfold pipeline. rewrite pipeline_unfold. unfold try_except. fold body handlers.
  assert (Hsnd : snd (match body u f q (called u f q w) with
                      | (Ok a, w1) => (Ok a, w1)
                      | (Raise e, w1) => handlers e w1
                      end) = snd (body u f q (called u f q w))).
  { destruct (body u f q (called u f q w)) as [[r|e] w1]; [reflexivity|].
    destruct (handlers_raise e w1) as [e' ->]. reflexivity. }
  rewrite Hsnd. destruct Hframe as (_ & Ht & Hs).
  split; [exact Ht|]. split; [exact Hs|].
  destruct (body_cases u f q (called u f q w))
    as [Hc | [[m Hc] | [[m Hc] | (cmd & outcome & d & Hran & Hl & _)]]];
    try (rewrite Hc; left; split; reflexivity).
  right. exists cmd, outcome, d. split; [exact Hran | exact Hl].
Qed.

(** The effects of one call of the pipeline: the timers and the session
    are left alone, and either [subprocess.run] is not called and the
    output directory is untouched, or it is called exactly once, and then
    the URL passed validation, both tools are installed and the command
    line is the one built from the arguments. *)
Theorem pipeline_effects (u f : string) (q : pyval) (w : World) :
  let w' := snd (pipeline u f q w) in
  timers w' = timers w
  /\ session_downloads w' = session_downloads w
  /\ ((launched w' = launched w /\ fs w' = fs w)
      \/ exists cmd outcome d,
           ran u f q w cmd outcome d
           /\ launched w' = (launched w ++ [cmd])%list).
Proof. exact (pipeline_world u f q w). Qed.

End PipelineEffects.

Lemma returned_file_is_in_the_directory_witness :
  let env := Scenario.env_with (Scenario.tool_writes Scenario.song 50000) in
  let res := mkDownloadResult true Scenario.song 50000 "Download completed successfully" in
  let w' := snd (Scenario.pipeline env Scenario.track "mp3" (PyStr "320")
                   (Scenario.world_of [Scenario.other])) in
  success res = true
  /\ (file_size res <= Scenario.MAX_FILE_SIZE)%Z
  /\ PyStr.startswith (filename res) (file_prefix env) = true
  /\ PyStr.endswith (filename res) ("." ++ PyStr.lower "mp3") = true
  /\ (exists file, Os.lookup (filename res) (fs w') = Some file
                   /\ fsize file = file_size res)
  /\ (exists cmd, launched w' = [] ++ [cmd])%list
  /\ fst (validate_soundcloud_url Scenario.validators_url Urllib.urlparse Scenario.track)
     = true
  /\ check_dependencies env = [].
Proof.
  intros env res w'.
  apply (returned_file_is_in_the_directory
           Scenario.validators_url Urllib.urlparse Scenario.DOWNLOADS_DIR
           Scenario.MAX_FILE_SIZE Scenario.CalledProcessError_str
           Scenario.TimeoutExpired_str env Scenario.track "mp3" (PyStr "320")
           (Scenario.world_of [Scenario.other]) res).
  vm_compute. reflexivity.
Defined.

(** ** Invariants of the [POST] handler *)

Lemma strip_blank (s : string) : PyStr.blank s = true -> PyStr.strip s = "".
Proof.
  unfold PyStr.strip, PyStr.blank. intros H. apply String.eqb_eq in H.
  now rewrite H.
Qed.

Lemma effective_quality_mp3 (q : pyval) :
  pyval_in_strs (effective_quality "mp3" q) ["128"; "192"; "256"; "320"] = true.
Proof.
  unfold effective_quality. cbn [String.eqb Ascii.eqb Bool.eqb andb].
  destruct (pyval_in_strs q ["128"; "192"; "256"; "320"]) eqn:E; cbn [negb].
  - exact E.
  - reflexivity.
Qed.

Lemma mem_formats (f : string) :
  PyStr.mem f ["mp3"; "wav"; "aac"] = true -> f = "mp3" \/ f = "wav" \/ f = "aac".
Proof.
  intros H. apply mem_true_iff in H. simpl in H.
  destruct H as [H | [H | [H | []]]]; auto.
Qed.

Section HandlerInvariants.

Variable validators_url : string -> bool.
Variable urlparse : string -> ParseResult.
Variable DOWNLOADS_DIR : string.
Variable MAX_FILE_SIZE : Z.
Variable CalledProcessError_str : Z -> list string -> string.
Variable TimeoutExpired_str : list string -> string.
Variable env : Env.

Let body := download_body validators_url urlparse DOWNLOADS_DIR MAX_FILE_SIZE env.
Let handlers := download_handlers CalledProcessError_str TimeoutExpired_str.
Let pipeline := download_soundcloud_to_mp3 validators_url urlparse DOWNLOADS_DIR
                  MAX_FILE_SIZE CalledProcessError_str TimeoutExpired_str env.
Let route_post := download_route_post validators_url urlparse DOWNLOADS_DIR
                    MAX_FILE_SIZE CalledProcessError_str TimeoutExpired_str env.
Let route := download_route validators_url urlparse DOWNLOADS_DIR
               MAX_FILE_SIZE CalledProcessError_str TimeoutExpired_str env.

(** What the handler makes of a request whose fields were read and which
    passes the two checks. *)
Lemma route_reached (req : Request) (w : World) (u f : string) (q : pyval) :
  method req = POST ->
  request_fields req = Ok (u, f, q) ->
  u <> "" ->
  PyStr.mem f ["mp3"; "wav"; "aac"] = true ->
  route req w
  = match bind (pipeline u f (effective_quality f q)) (deliver DOWNLOADS_DIR env f) w with
    | (Ok r, w') => (r, w')
    | (Raise (DownloadError m), w') => (json_error m 400, w')
    | (Raise _, w') => (json_error "An unexpected error occurred" 500, w')
    end.
Proof.
  intros Hpost Hreq Hu Hf. unfold route.
  rewrite (route_of_post validators_url urlparse DOWNLOADS_DIR MAX_FILE_SIZE
             CalledProcessError_str TimeoutExpired_str env req w Hpost).
  rewrite (route_post_fields validators_url urlparse DOWNLOADS_DIR MAX_FILE_SIZE
             CalledProcessError_str TimeoutExpired_str env req w u f q Hreq).
  apply String.eqb_neq in Hu. rewrite Hu, Hf. reflexivity.
Qed.

(** What the handler makes of a request that does not reach the
    pipeline: the world is left as it is. *)
Lemma route_not_reached (req : Request) (w : World) :
  method req = GET
  \/ (exists e, request_fields req = Raise e)
  \/ (exists u f q, request_fields req = Ok (u, f, q)
                    /\ (u = "" \/ PyStr.mem f ["mp3"; "wav"; "aac"] = false)) ->
  snd (route req w) = w.
Proof.
  intros [Hget | H].
  - unfold route, download_route. now rewrite Hget.
  - destruct (method req) eqn:Hm; [unfold route, download_route; now rewrite Hm|].
    unfold route.
    rewrite (route_of_post validators_url urlparse DOWNLOADS_DIR MAX_FILE_SIZE
               CalledProcessError_str TimeoutExpired_str env req w Hm).
    destruct H as [[e He] | (u & f & q & Hreq & Hbad)].
    + rewrite (route_post_unreadable validators_url urlparse DOWNLOADS_DIR MAX_FILE_SIZE
                 CalledProcessError_str TimeoutExpired_str env req w e He).
      now destruct e.
    + rewrite (route_post_fields validators_url urlparse DOWNLOADS_DIR MAX_FILE_SIZE
                 CalledProcessError_str TimeoutExpired_str env req w u f q Hreq).
      destruct Hbad as [-> | Hf].
      * reflexivity.
      * rewrite Hf. destruct (String.eqb u ""); reflexivity.
Qed.

(** Every request is of one of the two kinds. *)
Lemma route_dichotomy (req : Request) :
  (method req = GET
   \/ (exists e, request_fields req = Raise e)
   \/ (exists u f q, request_fields req = Ok (u, f, q)
                     /\ (u = "" \/ PyStr.mem f ["mp3"; "wav"; "aac"] = false)))
  \/ (exists u f q, method req = POST /\ request_fields req = Ok (u, f, q)
                    /\ u <> "" /\ PyStr.mem f ["mp3"; "wav"; "aac"] = true).
Proof.
  destruct (method req); [now left; left|].
  destruct (request_fields req) as [[[u f] q]|e]; [|left; right; left; now exists e].
  destruct (String.eqb u "") eqn:Hu.
  - apply String.eqb_eq in Hu. left. right. right. exists u, f, q. auto.
  - apply String.eqb_neq in Hu.
    destruct (PyStr.mem f ["mp3"; "wav"; "aac"]) eqn:Hf.
    + right. exists u, f, q. auto.
    + left. right. right. exists u, f, q. auto.
Qed.

Lemma deliver_world f res w :
  success res = true ->
  snd (deliver DOWNLOADS_DIR env f res w)
  = mkWorld (fs w) (launched w) (calls w)
            (timers w ++ [(60%float, Os.path_join DOWNLOADS_DIR (filename res))])
            (Some (session_list w ++ [(filename res, time_time env)])%list)
  /\ fst (deliver DOWNLOADS_DIR env f res w)
     = if regular_file (filename res) (fs w)
       then Ok (SendFile (Os.path_join DOWNLOADS_DIR (filename res)) (filename res)
                         ("audio/" ++ f))
       else Raise (OSError "No such file or directory").
Proof.
  intros Hs.
  unfold deliver, session_append, timer_start, send_file, modify, Os.isfile,
    bind, ret, raise, regular_file, session_list.
  rewrite Hs. cbn [negb fs].
  destruct (Os.lookup (filename res) (fs w)) as [g|]; [destruct (is_file g)|];
    split; reflexivity.
Qed.

Lemma snd_answer (r : Result Response * World) :
  snd (match r with
       | (Ok a, w') => (a, w')
       | (Raise (DownloadError m), w') => (json_error m 400, w')
       | (Raise _, w') => (json_error "An unexpected error occurred" 500, w')
       end) = snd r.
Proof. destruct r as [[a|e] w']; [reflexivity | now destruct e]. Qed.

(** The arguments the handler passes to the pipeline are validated: a
    request either leaves the history of calls and of subprocesses as it
    is, or adds one call, whose URL is the stripped [url] field and is not
    empty, whose format is one of [mp3], [wav] and [aac], whose quality, for
    [mp3], is one of the four bit rates, and whose command line has only
    string arguments. *)
Theorem handler_calls_are_validated (req : Request) (w : World) :
  let w' := snd (route req w) in
  (calls w' = calls w /\ launched w' = launched w)
  \/ exists u f q,
       request_fields req = Ok (u, f, q)
       /\ u <> ""
       /\ PyStr.mem f ["mp3"; "wav"; "aac"] = true
       /\ (f = "mp3" ->
           pyval_in_strs (effective_quality f q) ["128"; "192"; "256"; "320"] = true)
       /\ (exists cmd,
              argv (build_command DOWNLOADS_DIR MAX_FILE_SIZE env u f
                                  (effective_quality f q)) = Some cmd)
       /\ calls w' = (calls w ++ [(u, f, effective_quality f q)])%list.
Proof.
  cbv zeta.
  destruct (route_dichotomy req) as [Hno | (u & f & q & Hpost & Hreq & Hu & Hf)].
  - left. now rewrite (route_not_reached req w Hno).
  - right. exists u, f, q.
    split; [exact Hreq|]. split; [exact Hu|]. split; [exact Hf|].
    split; [intros ->; apply effective_quality_mp3|].
    split.
    + destruct (mem_formats f Hf) as [-> | [-> | ->]].
      * pose proof (effective_quality_mp3 q) as Hq.
        destruct (effective_quality "mp3" q); try discriminate Hq.
        eexists. reflexivity.
      * eexists. reflexivity.
      * eexists. reflexivity.
    + rewrite (route_reached req w u f q Hpost Hreq Hu Hf), snd_answer.
      unfold bind.
      pose proof (pipeline_calls validators_url urlparse DOWNLOADS_DIR MAX_FILE_SIZE
                    CalledProcessError_str TimeoutExpired_str env
                    u f (effective_quality f q) w) as Hc.
      fold pipeline in Hc.
      destruct (pipeline u f (effective_quality f q) w) as [[res|e] w1];
        cbn [snd] in Hc; [|exact Hc].
      now rewrite (deliver_calls DOWNLOADS_DIR env f res w1).
Qed.

End HandlerInvariants.

(** ** The answers of the [POST] handler *)

Section HandlerAnswers.

Variable validators_url : string -> bool.
Variable urlparse : string -> ParseResult.
Variable DOWNLOADS_DIR : string.
Variable MAX_FILE_SIZE : Z.
Variable CalledProcessError_str : Z -> list string -> string.
Variable TimeoutExpired_str : list string -> string.
Variable env : Env.

Let body := download_body validators_url urlparse DOWNLOADS_DIR MAX_FILE_SIZE env.
Let handlers := download_handlers CalledProcessError_str TimeoutExpired_str.
Let pipeline := download_soundcloud_to_mp3 validators_url urlparse DOWNLOADS_DIR
                  MAX_FILE_SIZE CalledProcessError_str TimeoutExpired_str env.
Let route := download_route validators_url urlparse DOWNLOADS_DIR
               MAX_FILE_SIZE CalledProcessError_str TimeoutExpired_str env.
Let ran := tool_ran validators_url urlparse DOWNLOADS_DIR MAX_FILE_SIZE env.

(** A URL that is missing or consists of white space only (that of
    Unicode included) is answered like an empty one, whatever the other fields say, provided the format
    is a string or absent: status 400, "Please provide a SoundCloud URL",
    and nothing else happens. *)
Theorem blank_url_is_refused
        (req : Request) (w : World) (d : list (string * pyval)) :
  method req = POST ->
  request_data req = Ok (PyDict d) ->
  (Py.assoc "url" d = None
   \/ exists s, Py.assoc "url" d = Some (PyStr s) /\ PyStr.blank s = true) ->
  (Py.assoc "format" d = None \/ exists s, Py.assoc "format" d = Some (PyStr s)) ->
  route req w = (json_error "Please provide a SoundCloud URL" 400, w).
Proof.
  intros Hpost Hdata Hurl Hformat.
  assert (Hfields : exists f q, request_fields req = Ok ("", f, q)).
  { unfold request_fields. rewrite Hdata. unfold Py.get.
    destruct Hurl as [-> | (s & -> & Hs)]; cbn [Py.strip].
    - destruct Hformat as [-> | (s' & ->)]; cbn [Py.lower]; eexists; eexists; reflexivity.
    - rewrite (strip_blank s Hs).
      destruct Hformat as [-> | (s' & ->)]; cbn [Py.lower]; eexists; eexists; reflexivity. }
  destruct Hfields as (f & q & Hreq).
  unfold route.
  rewrite (route_of_post validators_url urlparse DOWNLOADS_DIR MAX_FILE_SIZE
             CalledProcessError_str TimeoutExpired_str env req w Hpost).
  rewrite (route_post_fields validators_url urlparse DOWNLOADS_DIR MAX_FILE_SIZE
             CalledProcessError_str TimeoutExpired_str env req w "" f q Hreq).
  reflexivity.
Qed.

(** With an empty error stream the [except] clause raises a
    [DownloadError]. *)
Lemma handlers_silent rc cmd w :
  exists m, handlers (CalledProcessError rc cmd (CapStr "")) w = (Raise (DownloadError m), w).
Proof.
  unfold handlers, download_handlers, bind, lift, raise. cbn [nonempty String.eqb negb].
  repeat match goal with
         | |- context [if ?b then _ else _] => destruct b
         end; eexists; reflexivity.
Qed.

(** What the pipeline raises besides [DownloadError] comes from a nonzero
    exit, with text on its error stream, of the subprocess of this
    call. *)
Lemma pipeline_other_exception u f q w e :
  fst (pipeline u f q w) = Raise e ->
  (forall m, e <> DownloadError m) ->
  exists cmd rc out err d,
    ran u f q w cmd (Exited rc out err) d /\ rc <> 0%Z /\ err <> "".
Proof.
  unfold pipeline. rewrite pipeline_unfold. unfold try_except. fold body handlers.
  destruct (body u f q (called u f q w)) as [[r|e0] w1] eqn:Hb; cbn [fst];
    [discriminate|].
  intros He Hother.
  destruct e0 as [m|cmd|rc cmd c|m|m|m|m];
    try (cbn in He; injection He as <-; now elim (Hother _ eq_refl)).
  apply (body_CalledProcessError_ran validators_url urlparse DOWNLOADS_DIR
           MAX_FILE_SIZE env) in Hb as (out & err & d & Hran & Hrc & ->).
  exists cmd, rc, out, err, d. split; [exact Hran|]. split; [exact Hrc|].
  intros ->. destruct (handlers_silent rc cmd w1) as [m Hm].
  rewrite Hm in He. injection He as <-. now elim (Hother _ eq_refl).
Qed.

(** Such an exit ends the pipeline in the [AttributeError] of
    [.decode()]. *)
Lemma pipeline_text_stderr u f q w cmd rc out err d :
  ran u f q w cmd (Exited rc out err) d ->
  rc <> 0%Z ->
  err <> "" ->
  pipeline u f q w
  = (Raise (AttributeError decode_exn), started cmd d (called u f q w)).
Proof.
  intros Hran Hrc Herr.
  unfold pipeline. rewrite pipeline_unfold. unfold try_except.
  rewrite (body_nonzero validators_url urlparse DOWNLOADS_DIR MAX_FILE_SIZE env
             u f q (called u f q w) cmd rc out err d Hran Hrc).
  fold handlers. unfold handlers.
  now rewrite handlers_text_stderr.
Qed.

(** Reading the fields never raises a [DownloadError]. *)
Lemma request_fields_exception (req : Request) (e : Exn) :
  request_fields req = Raise e -> forall m, e <> DownloadError m.
Proof.
  unfold request_fields, request_data, Py.get, Py.strip, Py.lower.
  intros H m ->. revert H.
  repeat match goal with
         | |- context [match ?x with _ => _ end] =>
             lazymatch x with
             | context [match _ with _ => _ end] => fail
             | _ => destruct x
             end
         end; discriminate.
Qed.

(** The ways to a 500 answer, all of them: the fields of the request
    cannot be read (the body is not a JSON object, or [url] or [format] is
    not a string); or the request reaches the pipeline and either the
    subprocess of this request (the command built from its fields,
    started after its URL passed validation) exits with a nonzero status
    and text on its error stream, or the pipeline returns a name that is
    not a regular file, so that [send_file] fails. *)
Theorem server_error_causes (req : Request) (w : World) :
  method req = POST ->
  status_of (fst (route req w)) = 500%Z
  <-> ((exists e, request_fields req = Raise e)
       \/ exists u f q,
            request_fields req = Ok (u, f, q)
            /\ u <> ""
            /\ PyStr.mem f ["mp3"; "wav"; "aac"] = true
            /\ ((exists cmd rc out err d,
                    ran u f (effective_quality f q) w cmd (Exited rc out err) d
                    /\ rc <> 0%Z /\ err <> "")
                \/ exists res,
                     fst (pipeline u f (effective_quality f q) w) = Ok res
                     /\ regular_file
                          (filename res)
                          (fs (snd (pipeline u f (effective_quality f q) w)))
                        = false)).
Proof.
  intros Hpost. split.
  - intros H500.
    destruct (request_fields req) as [[[u f] q]|e] eqn:Hreq; [|left; now exists e].
    right. exists u, f, q. split; [reflexivity|]. revert H500. unfold route.
    rewrite (route_of_post validators_url urlparse DOWNLOADS_DIR MAX_FILE_SIZE
               CalledProcessError_str TimeoutExpired_str env req w Hpost).
    rewrite (route_post_fields validators_url urlparse DOWNLOADS_DIR MAX_FILE_SIZE
               CalledProcessError_str TimeoutExpired_str env req w u f q Hreq).
    destruct (String.eqb u "") eqn:Hu; [discriminate|].
    apply String.eqb_neq in Hu.
    destruct (PyStr.mem f ["mp3"; "wav"; "aac"]) eqn:Hf; cbn [negb]; [|discriminate].
    unfold bind. fold pipeline.
    destruct (pipeline u f (effective_quality f q) w) as [[res|e] w1] eqn:Hp.
    + pose proof (pipeline_returns_success validators_url urlparse DOWNLOADS_DIR
                    MAX_FILE_SIZE CalledProcessError_str TimeoutExpired_str env
                    u f (effective_quality f q) w res) as Hs.
      fold pipeline in Hs. rewrite Hp in Hs. specialize (Hs eq_refl).
      destruct (deliver_world DOWNLOADS_DIR env f res w1 Hs) as [_ Hfst].
      destruct (deliver DOWNLOADS_DIR env f res w1) as [r w2]. cbn [fst] in Hfst.
      subst r.
      destruct (regular_file (filename res) (fs w1)) eqn:Hreg; [discriminate|].
      intros _. split; [exact Hu|]. split; [reflexivity|].
      right. exists res. split; [reflexivity | exact Hreg].
    + intros H500. split; [exact Hu|]. split; [reflexivity|]. left.
      apply (pipeline_other_exception u f (effective_quality f q) w e).
      * now rewrite Hp.
      * intros m ->. discriminate H500.
  - intros [[e He] | (u & f & q & Hreq & Hu & Hf & Hcause)].
    + unfold route.
      rewrite (route_of_post validators_url urlparse DOWNLOADS_DIR MAX_FILE_SIZE
                 CalledProcessError_str TimeoutExpired_str env req w Hpost).
      rewrite (route_post_unreadable validators_url urlparse DOWNLOADS_DIR MAX_FILE_SIZE
                 CalledProcessError_str TimeoutExpired_str env req w e He).
      pose proof (request_fields_exception req e He) as Hother.
      destruct e as [m|cmd|rc cmd c|m|m|m|m]; try reflexivity. now elim (Hother m).
    + unfold route.
      rewrite (route_reached validators_url urlparse DOWNLOADS_DIR MAX_FILE_SIZE
                 CalledProcessError_str TimeoutExpired_str env req w u f q
                 Hpost Hreq Hu Hf).
      unfold bind. fold pipeline.
      destruct Hcause as [(cmd & rc & out & err & d & Hran & Hrc & Herr)
                         | (res & Hres & Hreg)].
      * now rewrite (pipeline_text_stderr _ _ _ _ _ _ _ _ _ Hran Hrc Herr).
      * pose proof (pipeline_returns_success validators_url urlparse DOWNLOADS_DIR
                      MAX_FILE_SIZE CalledProcessError_str TimeoutExpired_str env
                      u f (effective_quality f q) w res) as Hs.
        fold pipeline in Hs. specialize (Hs Hres).
        destruct (pipeline u f (effective_quality f q) w) as [[r|e] w1];
          cbn [fst snd] in Hres, Hreg; [|discriminate].
        injection Hres as ->.
        destruct (deliver_world DOWNLOADS_DIR env f res w1 Hs) as [_ Hfst].
        destruct (deliver DOWNLOADS_DIR env f res w1) as [r w2]. cbn [fst] in Hfst.
        subst r. now rewrite Hreg.
Qed.

(** Timers and session entries go with produced files: a request leaves
    the timers and the session as they are unless the pipeline, called
    with the fields of that request, returned a file, and then it adds one
    timer, of 60 seconds, for the path of that
    file, and one session entry, with the name of that file and the time
    of the request. *)
Theorem timer_and_session_follow_the_file (req : Request) (w : World) :
  let w' := snd (route req w) in
  (timers w' = timers w /\ session_downloads w' = session_downloads w)
  \/ exists u f q res,
       request_fields req = Ok (u, f, q)
       /\ fst (pipeline u f (effective_quality f q) w) = Ok res
       /\ timers w'
          = (timers w ++ [(60%float, Os.path_join DOWNLOADS_DIR (filename res))])%list
       /\ session_downloads w'
          = Some (session_list w ++ [(filename res, time_time env)])%list.
Proof.
  cbv zeta.
  destruct (route_dichotomy req) as [Hno | (u & f & q & Hpost & Hreq & Hu & Hf)].
  - left. unfold route.
    now rewrite (route_not_reached validators_url urlparse DOWNLOADS_DIR MAX_FILE_SIZE
                   CalledProcessError_str TimeoutExpired_str env req w Hno).
  - unfold route.
    rewrite (route_reached validators_url urlparse DOWNLOADS_DIR MAX_FILE_SIZE
               CalledProcessError_str TimeoutExpired_str env req w u f q
               Hpost Hreq Hu Hf), snd_answer.
    unfold bind.
    destruct (pipeline_world validators_url urlparse DOWNLOADS_DIR MAX_FILE_SIZE
                CalledProcessError_str TimeoutExpired_str env
                u f (effective_quality f q) w) as (Ht & Hs & _).
    fold pipeline in Ht, Hs |- *.
    destruct (pipeline u f (effective_quality f q) w) as [[res|e] w1] eqn:Hp;
      cbn [snd] in Ht, Hs.
    + right. exists u, f, q, res.
      split; [exact Hreq|]. rewrite Hp. split; [reflexivity|].
      pose proof (pipeline_returns_success validators_url urlparse DOWNLOADS_DIR
                    MAX_FILE_SIZE CalledProcessError_str TimeoutExpired_str env
                    u f (effective_quality f q) w res) as Hsucc.
      fold pipeline in Hsucc. rewrite Hp in Hsucc. specialize (Hsucc eq_refl).
      destruct (deliver_world DOWNLOADS_DIR env f res w1 Hsucc) as [-> _].
      cbn [timers session_downloads]. unfold session_list. rewrite Ht, Hs.
      split; reflexivity.
    + left. cbn [snd]. split; assumption.
Qed.

End HandlerAnswers.

Lemma blank_url_is_refused_witness :
  let env := Scenario.env_with (Scenario.tool_writes Scenario.song 50000) in
  let fields := [("url", PyStr "   "); ("format", PyStr "flac"); ("quality", PyInt 7)] in
  Scenario.route env (Scenario.post_json fields) Scenario.empty_world
  = (json_error "Please provide a SoundCloud URL" 400, Scenario.empty_world).
Proof.
  intros env fields.
  apply (blank_url_is_refused
           Scenario.validators_url Urllib.urlparse Scenario.DOWNLOADS_DIR
           Scenario.MAX_FILE_SIZE Scenario.CalledProcessError_str
           Scenario.TimeoutExpired_str env (Scenario.post_json fields)
           Scenario.empty_world fields).
  - reflexivity.
  - reflexivity.
  - right. exists "   ". split; reflexivity.
  - right. exists "flac". reflexivity.
Defined.

Lemma server_error_causes_witness :
  let env := Scenario.env_with (Scenario.tool_fails "ERROR: Private video") in
  let req := Scenario.post_json [("url", PyStr Scenario.track)] in
  let w := Scenario.empty_world in
  status_of (fst (Scenario.route env req w)) = 500%Z
  <-> ((exists e, request_fields req = Raise e)
       \/ exists u f q,
            request_fields req = Ok (u, f, q)
            /\ u <> ""
            /\ PyStr.mem f ["mp3"; "wav"; "aac"] = true
            /\ ((exists cmd rc out err d,
                    tool_ran Scenario.validators_url Urllib.urlparse
                      Scenario.DOWNLOADS_DIR Scenario.MAX_FILE_SIZE env
                      u f (effective_quality f q) w cmd (Exited rc out err) d
                    /\ rc <> 0%Z /\ err <> "")
                \/ exists res,
                     fst (Scenario.pipeline env u f (effective_quality f q) w) = Ok res
                     /\ regular_file
                          (filename res)
                          (fs (snd (Scenario.pipeline env u f (effective_quality f q) w)))
                        = false)).
Proof.
  intros env req w.
  apply (server_error_causes
           Scenario.validators_url Urllib.urlparse Scenario.DOWNLOADS_DIR
           Scenario.MAX_FILE_SIZE Scenario.CalledProcessError_str
           Scenario.TimeoutExpired_str env req w).
  reflexivity.
Defined.

(** ** The two deletions together *)

(** Keeping some entries of a directory keeps its names distinct. *)
Lemma distinct_names_filter (keep : File -> bool) (d : list File) :
  NoDup (map fname d) -> NoDup (map fname (filter keep d)).
Proof.
  intros Hnd. induction d as [|g d IH]; [exact Hnd|].
  apply NoDup_cons_iff in Hnd as [Hfresh Hnd]. cbn [filter].
  destruct (keep g); [|exact (IH Hnd)].
  cbn [map]. apply NoDup_cons; [|exact (IH Hnd)].
  intros Hin. apply Hfresh.
  apply in_map_iff in Hin as (h & Hname & Hh).
  apply in_map_iff. exists h. split; [exact Hname|].
  now apply filter_In in Hh.
Qed.

Lemma filter_stale_fresh (now : float) (l : list File) :
  filter (stale now) (filter (fresh now) l) = [].
Proof.
  induction l as [|a l IH]; simpl; [reflexivity|].
  unfold fresh at 1. destruct (stale now a) eqn:E; simpl; [exact IH|].
  now rewrite E.
Qed.

Lemma filter_fresh_fresh (now : float) (l : list File) :
  filter (fresh now) (filter (fresh now) l) = filter (fresh now) l.
Proof.
  induction l as [|a l IH]; simpl; [reflexivity|].
  destruct (fresh now a) eqn:E; simpl; [|exact IH].
  now rewrite E, IH.
Qed.

Lemma same_name_same_entry (l : list File) (g h : File) :
  NoDup (map fname l) -> In g l -> In h l -> fname h = fname g -> h = g.
Proof.
  induction l as [|a l IH]; simpl; intros Hnd Hg Hh Hname; [contradiction|].
  inversion Hnd as [|x xs Hnotin Hrest]; subst.
  destruct Hg as [-> | Hg], Hh as [-> | Hh].
  - reflexivity.
  - elim Hnotin. rewrite <- Hname. now apply in_map.
  - elim Hnotin. rewrite Hname. now apply in_map.
  - now apply IH.
Qed.

(** The sweep in closed form. *)
Lemma cleanup_run (env : Env) (w : World) :
  NoDup (map fname (fs w)) ->
  cleanup_old_files env w
  = (Jsonify [("success", PyBool true);
              ("cleaned_files",
               PyInt (Z.of_nat (length (filter (stale (time_time env)) (fs w)))))]
             200,
     set_fs (filter (fresh (time_time env)) (fs w)) w).
Proof.
  intros Hnd. unfold cleanup_old_files, bind, Os.listdir.
  now rewrite (cleanup_loop_spec (time_time env) (fs w) [] 0%Z w eq_refl Hnd).
Qed.

(** A second sweep at the same time finds nothing to remove: it reports 0
    and leaves the directory as the first sweep left it. *)
Theorem sweep_is_idempotent (env : Env) (w : World) :
  NoDup (map fname (fs w)) ->
  let w1 := snd (cleanup_old_files env w) in
  cleanup_old_files env w1
  = (Jsonify [("success", PyBool true); ("cleaned_files", PyInt 0)] 200, w1).
Proof.
  intros Hnd. cbv zeta. rewrite (cleanup_run env w Hnd). cbn [snd].
  rewrite cleanup_run; cbn [fs set_fs].
  - now rewrite filter_stale_fresh, filter_fresh_fresh.
  - now apply distinct_names_filter.
Qed.

Lemma sweep_is_idempotent_witness :
  let env := Scenario.env_with Scenario.tool_timeout in
  let old := mkFile "old.mp3" true 4000 1704103200%float in
  let young := mkFile "young.mp3" true 4000 1704110100%float in
  cleanup_old_files env (snd (cleanup_old_files env (Scenario.world_of [old; young])))
  = (Jsonify [("success", PyBool true); ("cleaned_files", PyInt 0)] 200,
     Scenario.world_of [young]).
Proof.
  intros env old young.
  apply (sweep_is_idempotent env (Scenario.world_of [old; young])).
  simpl. repeat constructor; simpl; intuition discriminate.
Defined.

Lemma remove_file_value (name : string) (w : World) :
  remove_file name w
  = (Ok tt, if regular_file name (fs w) then set_fs (without name (fs w)) w else w).
Proof.
  unfold remove_file, try_except, bind, Os.exists_, Os.remove, ret, regular_file.
  destruct (Os.lookup name (fs w)) as [g|] eqn:Hl; [|reflexivity].
  rewrite Hl. destruct (is_file g); reflexivity.
Qed.

(** The deferred deletion touches nothing but its own file: every entry
    with another name stays, the rest of the world is as before, and a
    second call changes nothing. *)
Theorem remove_file_is_local_and_idempotent (name : string) (w : World) :
  let w' := snd (remove_file name w) in
  (forall g, fname g <> name -> (In g (fs w') <-> In g (fs w)))
  /\ launched w' = launched w
  /\ calls w' = calls w
  /\ timers w' = timers w
  /\ session_downloads w' = session_downloads w
  /\ remove_file name w' = (Ok tt, w').
Proof.
  cbv zeta. rewrite (remove_file_value name w). cbn [snd].
  destruct (regular_file name (fs w)) eqn:Hreg.
  - cbn [fs set_fs launched calls timers session_downloads].
    repeat split; try tauto.
    + unfold without. intros Hin. now apply filter_In in Hin.
    + unfold without. intros Hin. apply filter_In. split; [assumption|].
      apply negb_true_iff. now apply String.eqb_neq.
    + rewrite remove_file_value. unfold regular_file. cbn [fs set_fs].
      now rewrite lookup_without.
  - repeat split; try tauto.
    rewrite remove_file_value. now rewrite Hreg.
Qed.

(** The sweep and the deferred deletion do not get in each other's way:
    when the timer of a file fires after the sweep has removed that file,
    [remove_file] returns normally and changes nothing. *)
Theorem deferred_deletion_after_sweep (env : Env) (w : World) (g : File) :
  NoDup (map fname (fs w)) ->
  In g (fs w) ->
  stale (time_time env) g = true ->
  let w1 := snd (cleanup_old_files env w) in
  remove_file (fname g) w1 = (Ok tt, w1).
Proof.
  intros Hnd Hin Hstale. cbv zeta.
  rewrite (cleanup_run env w Hnd). cbn [snd].
  rewrite remove_file_value. unfold regular_file. cbn [fs set_fs].
  destruct (Os.lookup (fname g) (filter (fresh (time_time env)) (fs w))) as [h|] eqn:Hl;
    [|reflexivity].
  exfalso. unfold Os.lookup in Hl. apply find_some in Hl as [Hh Hname].
  apply String.eqb_eq in Hname. apply filter_In in Hh as [Hh Hfresh].
  rewrite (same_name_same_entry (fs w) g h Hnd Hin Hh Hname) in Hfresh.
  unfold fresh in Hfresh. now rewrite Hstale in Hfresh.
Qed.

Lemma deferred_deletion_after_sweep_witness :
  let env := Scenario.env_with Scenario.tool_timeout in
  let old := mkFile "old.mp3" true 4000 1704103200%float in
  let young := mkFile "young.mp3" true 4000 1704110100%float in
  remove_file "old.mp3" (snd (cleanup_old_files env (Scenario.world_of [old; young])))
  = (Ok tt, snd (cleanup_old_files env (Scenario.world_of [old; young]))).
Proof.
  intros env old young.
  apply (deferred_deletion_after_sweep env (Scenario.world_of [old; young]) old).
  - simpl. repeat constructor; simpl; intuition discriminate.
  - now left.
  - vm_compute. reflexivity.
Defined.

(** ** Track information *)

Lemma split_one (c : ascii) (s : string) :
  Urllib.has c s = false -> PyLines.split c s = [s].
Proof.
  induction s as [|a s IH]; simpl; intros H; [reflexivity|].
  apply orb_false_iff in H as [Ha Hs]. rewrite Ha, (IH Hs). reflexivity.
Qed.

Lemma split_append (c : ascii) (a b : string) :
  Urllib.has c a = false ->
  PyLines.split c (a ++ String c b) = a :: PyLines.split c b.
Proof.
  induction a as [|x a IH]; simpl; intros H.
  - now rewrite Ascii.eqb_refl.
  - apply orb_false_iff in H as [Hx Ha]. rewrite Hx, (IH Ha). reflexivity.
Qed.

Lemma isspace2_newline (a : ascii) : PyStr.isspace2 a PyLines.newline = false.
Proof. unfold PyStr.isspace2. cbn. apply andb_false_r. Qed.

Lemma isspace3_newline_mid (a c : ascii) : PyStr.isspace3 a PyLines.newline c = false.
Proof.
  unfold PyStr.isspace3. cbv zeta.
  change (nat_of_ascii PyLines.newline) with 10%nat. cbn [Nat.eqb].
  now rewrite !andb_false_r.
Qed.

Lemma isspace3_newline_last (a b : ascii) : PyStr.isspace3 a b PyLines.newline = false.
Proof.
  unfold PyStr.isspace3. cbv zeta.
  change (nat_of_ascii PyLines.newline) with 10%nat. cbn [Nat.eqb Nat.leb].
  now rewrite !andb_false_r.
Qed.

(** [lstrip] in front of a newline. *)
Lemma lstrip_append_newline (x s : string) :
  PyStr.lstrip (s ++ String PyLines.newline x)
  = if PyStr.blank s then PyStr.lstrip x else PyStr.lstrip s ++ String PyLines.newline x.
Proof.
  remember (String.length s) as n eqn:Hn.
  assert (Hle : (String.length s <= n)%nat) by lia. clear Hn.
  revert s Hle. induction n as [|n IH]; intros s Hle.
  - destruct s; [reflexivity | simpl in Hle; lia].
  - destruct s as [|a [|b [|c r3]]]; unfold PyStr.blank in *.
    + reflexivity.
    + cbn [append PyStr.lstrip]. rewrite isspace2_newline.
      destruct (PyStr.isspace a); [reflexivity|].
      destruct x as [|c x]; [reflexivity|]. now rewrite isspace3_newline_mid.
    + cbn [append PyStr.lstrip]. rewrite isspace2_newline, isspace3_newline_last.
      destruct (PyStr.isspace a).
      * destruct (PyStr.isspace b); [reflexivity|].
        destruct x as [|c x]; [reflexivity|]. now rewrite isspace3_newline_mid.
      * destruct (PyStr.isspace2 a b); reflexivity.
    + cbn [String.length] in Hle.
      change (PyStr.lstrip (String a (String b (String c r3)) ++ String PyLines.newline x))
        with (if PyStr.isspace a
              then PyStr.lstrip (String b (String c r3) ++ String PyLines.newline x)
              else if PyStr.isspace2 a b
                   then PyStr.lstrip (String c r3 ++ String PyLines.newline x)
                   else if PyStr.isspace3 a b c
                        then PyStr.lstrip (r3 ++ String PyLines.newline x)
                        else String a (String b (String c r3)) ++ String PyLines.newline x).
      change (PyStr.lstrip (String a (String b (String c r3))))
        with (if PyStr.isspace a
              then PyStr.lstrip (String b (String c r3))
              else if PyStr.isspace2 a b
                   then PyStr.lstrip (String c r3)
                   else if PyStr.isspace3 a b c
                        then PyStr.lstrip r3
                        else String a (String b (String c r3))).
      destruct (PyStr.isspace a); [apply IH; cbn [String.length]; lia|].
      destruct (PyStr.isspace2 a b); [apply IH; cbn [String.length]; lia|].
      destruct (PyStr.isspace3 a b c); [apply IH; lia|].
      reflexivity.
Qed.

Lemma blank_append_newline (x s : string) :
  PyStr.blank (s ++ String PyLines.newline x) = PyStr.blank s && PyStr.blank x.
Proof.
  unfold PyStr.blank at 1. rewrite lstrip_append_newline.
  destruct (PyStr.blank s) eqn:Hs; [reflexivity|].
  destruct (PyStr.lstrip s); reflexivity.
Qed.

Lemma rstrip_solid (s : string) : s <> "" -> PyStr.rstrip s = s -> PyStr.blank s = false.
Proof.
  destruct s as [|a s]; [easy|]. cbn [PyStr.rstrip].
  destruct (PyStr.blank (String a s)); [discriminate | reflexivity].
Qed.

(** A newline at the end goes with the white space in front of it. *)
Lemma rstrip_newline_end (s : string) :
  PyStr.rstrip (s ++ String PyLines.newline "") = PyStr.rstrip s.
Proof.
  induction s as [|a s IH]; [reflexivity|].
  change (String a s ++ String PyLines.newline "")
    with (String a (s ++ String PyLines.newline "")).
  cbn [PyStr.rstrip].
  change (String a (s ++ String PyLines.newline ""))
    with (String a s ++ String PyLines.newline "").
  rewrite blank_append_newline, andb_true_r, IH. reflexivity.
Qed.

(** A newline in front of text is kept, with all that precedes it. *)
Lemma rstrip_append_newline (x s : string) :
  PyStr.blank x = false ->
  PyStr.rstrip (s ++ String PyLines.newline x) = s ++ String PyLines.newline (PyStr.rstrip x).
Proof.
  intros Hx. induction s as [|a s IH].
  - cbn [append PyStr.rstrip]. 
    change (PyStr.blank (String PyLines.newline x)) with (PyStr.blank x).
    now rewrite Hx.
  - change (String a s ++ String PyLines.newline x)
      with (String a (s ++ String PyLines.newline x)).
    cbn [PyStr.rstrip].
    change (String a (s ++ String PyLines.newline x))
      with (String a s ++ String PyLines.newline x).
    rewrite blank_append_newline, Hx, andb_false_r, IH. reflexivity.
Qed.

Lemma rstrip_last_line (u : string) :
  ends_solid u = true ->
  PyStr.rstrip (u ++ String PyLines.newline "") = u /\ PyStr.blank u = false.
Proof.
  unfold ends_solid. intros H. apply andb_true_iff in H as [Hne Hu].
  apply negb_true_iff, String.eqb_neq in Hne. apply String.eqb_eq in Hu.
  split; [now rewrite rstrip_newline_end | now apply rstrip_solid].
Qed.

Lemma lstrip_solid (t : string) :
  starts_solid t = true -> PyStr.lstrip t = t /\ PyStr.blank t = false.
Proof.
  unfold starts_solid, PyStr.blank. intros H. apply andb_true_iff in H as [Hne Ht].
  apply negb_true_iff in Hne. apply String.eqb_eq in Ht.
  now rewrite Ht.
Qed.

Lemma strip_three_lines (t d u : string) :
  starts_solid t = true ->
  ends_solid u = true ->
  PyStr.strip (t ++ String PyLines.newline
                      (d ++ String PyLines.newline (u ++ String PyLines.newline "")))
  = t ++ String PyLines.newline (d ++ String PyLines.newline u).
Proof.
  intros Ht Hu. unfold PyStr.strip.
  destruct (lstrip_solid t Ht) as [Hl Hb].
  destruct (rstrip_last_line u Hu) as [Hlast Hub].
  rewrite lstrip_append_newline, Hb, Hl.
  assert (Hu' : PyStr.blank (u ++ String PyLines.newline "") = false)
    by now rewrite blank_append_newline, Hub.
  rewrite rstrip_append_newline
    by now rewrite blank_append_newline, Hu', andb_false_r.
  now rewrite (rstrip_append_newline _ d Hu'), Hlast.
Qed.

Lemma strip_after_empty_line (d u : string) :
  starts_solid d = true ->
  ends_solid u = true ->
  PyStr.strip (String PyLines.newline
                 (d ++ String PyLines.newline (u ++ String PyLines.newline "")))
  = d ++ String PyLines.newline u.
Proof.
  intros Hd Hu. unfold PyStr.strip.
  change (PyStr.lstrip (String PyLines.newline ?x)) with (PyStr.lstrip x).
  destruct (lstrip_solid d Hd) as [Hl Hb].
  destruct (rstrip_last_line u Hu) as [Hlast Hub].
  rewrite lstrip_append_newline, Hb, Hl.
  rewrite rstrip_append_newline by now rewrite blank_append_newline, Hub.
  now rewrite Hlast.
Qed.

Lemma argv_info_command (url : string) : argv (info_command url) = Some (info_argv url).
Proof. reflexivity. Qed.

Section TrackInformation.

Variable env : Env.

(** [get_file_info] in terms of what the tool did. *)
Lemma get_file_info_value (url : string) (w : World) :
  get_file_info env url w
  = (Ok match fst (run env (info_argv url) (fs w)) with
        | Exited rc out _ =>
            if (rc =? 0)%Z
            then Some (file_info_of (PyLines.split PyLines.newline (PyStr.strip out)))
            else None
        | TimedOut => None
        | CannotStart _ => None
        end,
     started (info_argv url)
             (directory_after (fst (run env (info_argv url) (fs w)))
                              (snd (run env (info_argv url) (fs w))) (fs w))
             w).
Proof.
  unfold get_file_info, try_except, bind, subprocess_run, lift, ret.
  rewrite argv_info_command.
  destruct (run env (info_argv url) (fs w)) as [[rc out err| |reason] d];
    [|reflexivity ..].
  cbn [fst snd]. destruct (rc =? 0)%Z; reflexivity.
Qed.

(** The three lines the tool prints come back as title, duration and
    uploader, when the title does not start with white space and the
    uploader does not end with it. *)
Theorem printed_lines_come_back
        (url : string) (w : World) (t d u err : string) (dir : list File) :
  one_line t = true -> one_line d = true -> one_line u = true ->
  starts_solid t = true ->
  ends_solid u = true ->
  run env (info_argv url) (fs w)
  = (Exited 0 (t ++ InfoScenario.nl ++ d ++ InfoScenario.nl ++ u ++ InfoScenario.nl)
            err, dir) ->
  fst (get_file_info env url w) = Ok (Some (mkFileInfo t d u)).
Proof.
  unfold one_line. intros Ht Hd Hu Hstart Hend Hrun.
  apply negb_true_iff in Ht, Hd, Hu.
  rewrite get_file_info_value, Hrun. cbn [fst Z.eqb]. do 2 f_equal.
  change (t ++ InfoScenario.nl ++ d ++ InfoScenario.nl ++ u ++ InfoScenario.nl)
    with (t ++ String PyLines.newline
                 (d ++ String PyLines.newline (u ++ String PyLines.newline ""))).
  rewrite (strip_three_lines t d u Hstart Hend).
  rewrite (split_append _ t _ Ht), (split_append _ d _ Hd), (split_one _ u Hu).
  reflexivity.
Qed.

(** An empty title shifts the fields: the leading newline is stripped
    with the white space, so the duration is reported as the title, the
    uploader as the duration, and the uploader is "Unknown". *)
Theorem empty_title_shifts_the_fields
        (url : string) (w : World) (d u err : string) (dir : list File) :
  one_line d = true -> one_line u = true ->
  starts_solid d = true ->
  ends_solid u = true ->
  run env (info_argv url) (fs w)
  = (Exited 0 (InfoScenario.nl ++ d ++ InfoScenario.nl ++ u ++ InfoScenario.nl) err, dir) ->
  fst (get_file_info env url w) = Ok (Some (mkFileInfo d u "Unknown")).
Proof.
  unfold one_line. intros Hd Hu Hstart Hend Hrun.
  apply negb_true_iff in Hd, Hu.
  rewrite get_file_info_value, Hrun. cbn [fst Z.eqb]. do 2 f_equal.
  change (InfoScenario.nl ++ d ++ InfoScenario.nl ++ u ++ InfoScenario.nl)
    with (String PyLines.newline
            (d ++ String PyLines.newline (u ++ String PyLines.newline ""))).
  rewrite (strip_after_empty_line d u Hstart Hend).
  rewrite (split_append _ d _ Hd), (split_one _ u Hu).
  reflexivity.
Qed.

(** The fall-back for the title is never used: [split] returns at least
    one piece, so output that is empty or white space gives the empty
    title, with "Unknown" for the two other fields. *)
Theorem blank_output_gives_empty_title
        (url : string) (w : World) (out err : string) (dir : list File) :
  PyStr.blank out = true ->
  run env (info_argv url) (fs w) = (Exited 0 out err, dir) ->
  fst (get_file_info env url w) = Ok (Some (mkFileInfo "" "Unknown" "Unknown")).
Proof.
  intros Hblank Hrun.
  rewrite get_file_info_value, Hrun. cbn [fst Z.eqb].
  now rewrite (strip_blank out Hblank).
Qed.


End TrackInformation.

Lemma printed_lines_come_back_witness :
  let out := "My Song" ++ InfoScenario.nl ++ "215" ++ InfoScenario.nl ++ "Some Artist"
             ++ InfoScenario.nl in
  fst (get_file_info (Scenario.env_with (InfoScenario.tool_prints out)) Scenario.track
         Scenario.empty_world)
  = Ok (Some (mkFileInfo "My Song" "215" "Some Artist")).
Proof.
  intros out.
  apply (printed_lines_come_back
           (Scenario.env_with (InfoScenario.tool_prints out)) Scenario.track
           Scenario.empty_world "My Song" "215" "Some Artist" "" []);
    reflexivity.
Defined.

Lemma empty_title_shifts_the_fields_witness :
  let out := InfoScenario.nl ++ "215" ++ InfoScenario.nl ++ "Some Artist"
             ++ InfoScenario.nl in
  fst (get_file_info (Scenario.env_with (InfoScenario.tool_prints out)) Scenario.track
         Scenario.empty_world)
  = Ok (Some (mkFileInfo "215" "Some Artist" "Unknown")).
Proof.
  intros out.
  apply (empty_title_shifts_the_fields
           (Scenario.env_with (InfoScenario.tool_prints out)) Scenario.track
           Scenario.empty_world "215" "Some Artist" "" []);
    reflexivity.
Defined.

Lemma blank_output_gives_empty_title_witness :
  fst (get_file_info (Scenario.env_with (InfoScenario.tool_prints InfoScenario.nl))
         Scenario.track Scenario.empty_world)
  = Ok (Some (mkFileInfo "" "Unknown" "Unknown")).
Proof.
  apply (blank_output_gives_empty_title
           (Scenario.env_with (InfoScenario.tool_prints InfoScenario.nl)) Scenario.track
           Scenario.empty_world InfoScenario.nl "" []);
    reflexivity.
Defined.

(** White space of Unicode around the printed text is stripped like the
    newline: such a title does not start solid, such an uploader does not
    end solid, and both come back without it. *)
Example no_break_space_around_the_output :
  let out := Scenario.nbsp ++ "My Song" ++ InfoScenario.nl ++ "215" ++ InfoScenario.nl
             ++ "Some Artist" ++ Scenario.wide_space ++ InfoScenario.nl in
  starts_solid (Scenario.nbsp ++ "My Song") = false
  /\ ends_solid ("Some Artist" ++ Scenario.wide_space) = false
  /\ fst (get_file_info (Scenario.env_with (InfoScenario.tool_prints out)) Scenario.track
            Scenario.empty_world)
     = Ok (Some (mkFileInfo "My Song" "215" "Some Artist")).
Proof. vm_compute. repeat split. Qed.

(** With the tool absent [get_file_info] returns [None] and leaves the
    directory as it is. *)
Example missing_tool_gives_no_info :
  get_file_info (Scenario.env_with Scenario.tool_missing) Scenario.track
    (Scenario.world_of [Scenario.other])
  = (Ok None, started (info_argv Scenario.track) [Scenario.other]
                (Scenario.world_of [Scenario.other])).
Proof. vm_compute. reflexivity. Qed.

(** ** The view of [/info] *)

Section InfoView.

Variable validators_url : string -> bool.
Variable urlparse : string -> ParseResult.
Variable DOWNLOADS_DIR : string.
Variable MAX_FILE_SIZE : Z.
Variable CalledProcessError_str : Z -> list string -> string.
Variable TimeoutExpired_str : list string -> string.
Variable env : Env.
Variable get_json_of_form : Result pyval.

Let validate := validate_soundcloud_url validators_url urlparse.
Let info := get_track_info validators_url urlparse env get_json_of_form.
Let info_body := get_track_info_body validators_url urlparse env get_json_of_form.
Let route := download_route validators_url urlparse DOWNLOADS_DIR
               MAX_FILE_SIZE CalledProcessError_str TimeoutExpired_str env.

(** The view in terms of the URL it read. *)
Lemma info_of_url (req : Request) (w : World) (data v : pyval) (url : string) :
  request_get_json get_json_of_form req = Ok data ->
  url_entry data = Ok (Some v) ->
  Py.strip v = Ok url ->
  info req w
  = if fst (validate url)
    then match fst (get_file_info env url w) with
         | Ok (Some i) =>
             (Jsonify [("success", PyBool true); ("info", info_payload i)] 200,
              snd (get_file_info env url w))
         | _ => (json_error "Could not retrieve track information" 400,
                 snd (get_file_info env url w))
         end
    else (json_error (snd (validate url)) 400, w).
Proof.
  intros Hdata Hentry Hstrip.
  unfold info, get_track_info, get_track_info_body.
  rewrite Hdata. unfold bind at 1, lift at 1.
  rewrite Hentry. unfold bind at 1, lift at 1.
  rewrite Hstrip. unfold bind at 1, lift at 1.
  fold validate. destruct (validate url) as [ok msg]. destruct ok; cbn [negb fst snd].
  - unfold bind. rewrite get_file_info_value. cbn [fst snd].
    destruct (fst (run env (info_argv url) (fs w))) as [rc out err| |reason];
      [|reflexivity ..].
    destruct (rc =? 0)%Z; reflexivity.
  - reflexivity.
Qed.

(** For a request with a valid URL the answer follows the tool: 200 with
    the three fields when it exits with status 0, and otherwise (timeout,
    nonzero status or a tool that could not be started) 400 with "Could
    not retrieve track information"; never 500. *)
Theorem info_answer_follows_the_tool
        (req : Request) (w : World) (data v : pyval) (url : string) :
  request_get_json get_json_of_form req = Ok data ->
  url_entry data = Ok (Some v) ->
  Py.strip v = Ok url ->
  fst (validate url) = true ->
  fst (info req w)
  = match fst (run env (info_argv url) (fs w)) with
    | Exited rc out _ =>
        if (rc =? 0)%Z
        then Jsonify
               [("success", PyBool true);
                ("info",
                 info_payload
                   (file_info_of (PyLines.split PyLines.newline (PyStr.strip out))))]
               200
        else json_error "Could not retrieve track information" 400
    | TimedOut => json_error "Could not retrieve track information" 400
    | CannotStart _ => json_error "Could not retrieve track information" 400
    end.
Proof.
  intros Hdata Hentry Hstrip Hvalid.
  rewrite (info_of_url req w data v url Hdata Hentry Hstrip), Hvalid.
  rewrite get_file_info_value. cbn [fst snd].
  destruct (fst (run env (info_argv url) (fs w))) as [rc out err| |reason];
    [|reflexivity ..].
  destruct (rc =? 0)%Z; reflexivity.
Qed.

(** The two views report an invalid URL with the same status and
    different texts: [/info] answers 400 with the validator's message and
    does nothing else; [POST /] answers 400 with that message behind
    "Unexpected error: ", because the pipeline wraps its own
    [DownloadError]. *)
Theorem invalid_url_answers
        (req : Request) (w : World) (d : list (string * pyval)) (s : string) :
  method req = POST ->
  body req = JsonBody (PyDict d) ->
  Py.assoc "url" d = Some (PyStr s) ->
  Py.assoc "format" d = None ->
  PyStr.strip s <> "" ->
  fst (validate (PyStr.strip s)) = false ->
  info req w = (json_error (snd (validate (PyStr.strip s))) 400, w)
  /\ fst (route req w)
     = json_error ("Unexpected error: " ++ snd (validate (PyStr.strip s))) 400
  /\ launched (snd (route req w)) = launched w.
Proof.
  intros Hpost Hbody Hurl Hformat Hne Hinvalid.
  split.
  - rewrite (info_of_url req w (PyDict d) (PyStr s) (PyStr.strip s)).
    + now rewrite Hinvalid.
    + unfold request_get_json. now rewrite Hbody.
    + unfold url_entry. destruct d as [|kv d']; [discriminate Hurl|].
      cbn [truthy negb]. now rewrite Hurl.
    + reflexivity.
  - assert (Hreq : request_fields req
                   = Ok (PyStr.strip s, "mp3",
                         match Py.assoc "quality" d with
                         | Some q => q
                         | None => PyStr "192"
                         end)).
    { unfold request_fields, request_data. rewrite Hbody. unfold Py.get.
      rewrite Hurl, Hformat. reflexivity. }
    unfold route.
    rewrite (route_reached validators_url urlparse DOWNLOADS_DIR MAX_FILE_SIZE
               CalledProcessError_str TimeoutExpired_str env req w _ _ _
               Hpost Hreq Hne eq_refl).
    unfold bind.
    rewrite (pipeline_invalid validators_url urlparse DOWNLOADS_DIR MAX_FILE_SIZE
               CalledProcessError_str TimeoutExpired_str env _ _ _ w Hinvalid).
    split; reflexivity.
Qed.

(** [/info] hands the tool to [subprocess.run] only on a URL that passed
    validation, and once: a request either leaves the world as it is, or
    its stripped [url] field is valid and the world is the one left by the
    one run of the information command on that URL, with the directory
    untouched when the tool could not be started. *)
Theorem info_runs_the_tool_on_valid_urls_only (req : Request) (w : World) :
  snd (info req w) = w
  \/ exists data v url,
       request_get_json get_json_of_form req = Ok data
       /\ url_entry data = Ok (Some v)
       /\ Py.strip v = Ok url
       /\ fst (validate url) = true
       /\ snd (info req w)
          = started (info_argv url)
                    (directory_after (fst (run env (info_argv url) (fs w)))
                                     (snd (run env (info_argv url) (fs w))) (fs w))
                    w.
Proof.
  destruct (request_get_json get_json_of_form req) as [data|e] eqn:Hdata.
  2: { left. unfold info, get_track_info, get_track_info_body.
       rewrite Hdata. reflexivity. }
  destruct (url_entry data) as [[v|]|e] eqn:Hentry.
  2, 3: left; unfold info, get_track_info, get_track_info_body;
        rewrite Hdata; unfold bind at 1, lift at 1; rewrite Hentry; reflexivity.
  destruct (Py.strip v) as [url|e] eqn:Hstrip.
  2: { left. unfold info, get_track_info, get_track_info_body.
       rewrite Hdata. unfold bind at 1, lift at 1. rewrite Hentry.
       unfold bind at 1, lift at 1. rewrite Hstrip. reflexivity. }
  rewrite (info_of_url req w data v url Hdata Hentry Hstrip).
  destruct (fst (validate url)) eqn:Hvalid; [|now left].
  right. exists data, v, url. repeat split; try assumption.
  rewrite get_file_info_value. cbn [fst snd].
  destruct (fst (run env (info_argv url) (fs w))) as [rc out err| |reason];
    [|reflexivity ..].
  destruct (rc =? 0)%Z; reflexivity.
Qed.

End InfoView.

(** A no-break space in front of a valid URL is stripped: the tool is run
    on the clean URL. *)
Example info_strips_no_break_space :
  let req := Scenario.post_json [("url", PyStr (Scenario.nbsp ++ Scenario.track))] in
  launched (snd (InfoScenario.info
                   (Scenario.env_with (InfoScenario.tool_prints "My Song")) req
                   Scenario.empty_world))
  = [info_argv Scenario.track].
Proof. vm_compute. reflexivity. Qed.

(** A URL field that holds a no-break space only is empty once stripped;
    the two views answer it differently. *)
Example no_break_space_url_answers :
  let env := Scenario.env_with (Scenario.tool_writes Scenario.song 50000) in
  let req := Scenario.post_json [("url", PyStr Scenario.nbsp)] in
  fst (Scenario.route env req Scenario.empty_world)
  = json_error "Please provide a SoundCloud URL" 400
  /\ fst (InfoScenario.info env req Scenario.empty_world)
     = json_error "Invalid URL format" 400.
Proof. vm_compute. repeat split. Qed.

Lemma info_answer_follows_the_tool_witness :
  let out := "My Song" ++ InfoScenario.nl ++ "215" ++ InfoScenario.nl ++ "Some Artist"
             ++ InfoScenario.nl in
  let req := Scenario.post_json [("url", PyStr " https://soundcloud.com/a/b ")] in
  fst (InfoScenario.info (Scenario.env_with (InfoScenario.tool_prints out)) req
         Scenario.empty_world)
  = Jsonify [("success", PyBool true);
             ("info", PyDict [("title", PyStr "My Song"); ("duration", PyStr "215");
                              ("uploader", PyStr "Some Artist")])]
            200.
Proof.
  intros out req.
  apply (info_answer_follows_the_tool
           Scenario.validators_url Urllib.urlparse
           (Scenario.env_with (InfoScenario.tool_prints out)) (Ok PyNone)
           req Scenario.empty_world
           (PyDict [("url", PyStr " https://soundcloud.com/a/b ")])
           (PyStr " https://soundcloud.com/a/b ") Scenario.track);
    reflexivity.
Defined.

Lemma invalid_url_answers_witness :
  let env := Scenario.env_with (Scenario.tool_writes Scenario.song 50000) in
  let req := Scenario.post_json [("url", PyStr "https://evil.example.com/x")] in
  InfoScenario.info env req Scenario.empty_world
  = (json_error "URL must be from SoundCloud" 400, Scenario.empty_world)
  /\ fst (Scenario.route env req Scenario.empty_world)
     = json_error "Unexpected error: URL must be from SoundCloud" 400
  /\ launched (snd (Scenario.route env req Scenario.empty_world)) = [].
Proof.
  intros env req.
  apply (invalid_url_answers
           Scenario.validators_url Urllib.urlparse Scenario.DOWNLOADS_DIR
           Scenario.MAX_FILE_SIZE Scenario.CalledProcessError_str
           Scenario.TimeoutExpired_str env (Ok PyNone) req Scenario.empty_world
           [("url", PyStr "https://evil.example.com/x")] "https://evil.example.com/x").
  - reflexivity.
  - reflexivity.
  - reflexivity.
  - reflexivity.
  - discriminate.
  - reflexivity.
Defined.

(** ** The worker pool of [gunicorn.conf.py] *)

(** On a host with at least one CPU the pool has three workers when there
    is one CPU and four otherwise: never more than four. *)
Theorem workers_bounds (cpu_count : Z) :
  (1 <= cpu_count)%Z ->
  Gunicorn.workers cpu_count = (if (cpu_count =? 1)%Z then 3 else 4)%Z
  /\ (3 <= Gunicorn.workers cpu_count <= 4)%Z.
Proof.
  intros H. unfold Gunicorn.workers.
  destruct (cpu_count =? 1)%Z eqn:E.
  - apply Z.eqb_eq in E. subst. split; [reflexivity | lia].
  - apply Z.eqb_neq in E. split; lia.
Qed.

Lemma workers_bounds_witness :
  Gunicorn.workers 8 = 4%Z /\ (3 <= Gunicorn.workers 8 <= 4)%Z.
Proof. apply (workers_bounds 8). lia. Defined.
